(** * Smart Research Assistant: the front end and its contract with the RAG core

    A shallow embedding of the React components of the repository
    (ChatInterface, DocumentList, DocumentUpload and the Home page) and of
    the question-answering entry point of the RAG service behind them.

    Conventions of the embedding.
    - A JavaScript string is its sequence of UTF-16 code units.
    - A JavaScript number that the code only uses as an integer (a page, a
      count) is a [Z].
    - A component is a record of its [useState] cells.  An event handler is
      a function of the cells of the render it was created in (its closure):
      every read goes to that snapshot, the [set...] calls build the next
      state.
    - An [async] handler is cut at its [await]: the part before it returns
      the request it issues and the variables the rest of the body closes
      over; the part after it is one function for the resolved promise and
      one for the rejected promise.
    - What a component returns is a tree of React elements ([vnode]). *)

From Stdlib Require Import String Ascii ZArith DecimalString.
From stdpp Require Import gmap list.

Local Open Scope Z_scope.

(* ===================================================================== *)
(** ** JavaScript values *)
(* ===================================================================== *)

Module JS.

(** A string: UTF-16 code units. *)
Definition jsstring : Type := list N.

(** An ASCII literal of the source. *)
Definition lit (s : string) : jsstring :=
  (fun a => N_of_ascii a) <$> list_ascii_of_string s.
#[global] Arguments lit s%_string.

(** ECMAScript WhiteSpace and LineTerminator code points, the characters
    [String.prototype.trim] strips. *)
Definition isWhiteSpace (c : N) : bool :=
  ((9 <=? c) && (c <=? 13) || (c =? 32) || (c =? 160) || (c =? 5760)
   || (8192 <=? c) && (c <=? 8202)
   || (c =? 8232) || (c =? 8233) || (c =? 8239) || (c =? 8287)
   || (c =? 12288) || (c =? 65279))%N.

Fixpoint dropWhile {A} (p : A -> bool) (l : list A) : list A :=
  match l with
  | [] => []
  | x :: l' => if p x then dropWhile p l' else l
  end.

Definition trimStart (s : jsstring) : jsstring := dropWhile isWhiteSpace s.
Definition trimEnd (s : jsstring) : jsstring :=
  reverse (dropWhile isWhiteSpace (reverse s)).

(** [s.trim()] *)
Definition trim (s : jsstring) : jsstring := trimEnd (trimStart s).

(** Truthiness of a string: only the empty string is falsy. *)
Definition truthy (s : jsstring) : bool :=
  match s with [] => false | _ => true end.

(** [String(n)] for an integer [n]: plain decimal digits. *)
Definition Number_toString (n : Z) : jsstring :=
  lit (NilZero.string_of_int (Z.to_int n)).

End JS.
Export JS.

(* ===================================================================== *)
(** ** React elements *)
(* ===================================================================== *)

Inductive attr : Type :=
| AStr (s : string)
| ABool (b : bool)
| AText (s : jsstring).

(** The children of an element are strings, numbers, nothing ([false],
    [null] and [undefined] render nothing), arrays of children ([VFrag],
    what [xs.map(...)] gives) or elements.  Event handler props and the
    [key] of a list item are left out of the tree. *)
#[warnings="-register-all"]
Inductive vnode : Type :=
| VText (s : jsstring)
| VNum (n : Z)
| VNone
| VFrag (items : list vnode)
| VElem (tag : string) (props : list (string * attr)) (children : list vnode).

Definition el (tag : string) (className : string) (children : list vnode) : vnode :=
  VElem tag [("className"%string, AStr className)] children.

(** What a node puts on the screen, leaf by leaf in document order. *)
Inductive leaf : Type :=
| LText (s : jsstring)
| LNum (n : Z).

Fixpoint leaves (v : vnode) : list leaf :=
  match v with
  | VText s => [LText s]
  | VNum n => [LNum n]
  | VNone => []
  | VFrag cs => mbind leaves cs
  | VElem _ _ cs => mbind leaves cs
  end.

(** The numbers among the leaves. *)
Definition numbers (ls : list leaf) : list Z :=
  ls ≫= (fun l => match l with LNum n => [n] | LText _ => [] end).

(** The elements with a given tag, outermost first, in document order. *)
Fixpoint elements_by_tag (t : string) (v : vnode) : list vnode :=
  match v with
  | VElem tag _ cs =>
      if String.eqb tag t then [v] else mbind (elements_by_tag t) cs
  | VFrag cs => mbind (elements_by_tag t) cs
  | _ => []
  end.

(* ===================================================================== *)
(** ** Data shared by the components *)
(* ===================================================================== *)

Inductive Role : Type := user | assistant.

Definition Role_eqb (a b : Role) : bool :=
  match a, b with
  | user, user | assistant, assistant => true
  | _, _ => false
  end.

(** An entry of [sources]: [{source, page, snippet}]. *)
Record Source : Type := mkSource {
  source : jsstring;
  page : Z;
  snippet : jsstring
}.

(** [type Message]; [sources?] is an optional property. *)
Record Message : Type := mkMessage {
  role : Role;
  content : jsstring;
  sources : option (list Source)
}.

(** A browser [File]: its name, its MIME type and its bytes. *)
Record File : Type := mkFile {
  file_name : jsstring;
  file_type : jsstring;
  file_bytes : list N
}.

(** What was thrown: the message and the stack of the error object. *)
Record JsError : Type := mkJsError {
  err_message : jsstring;
  err_stack : jsstring
}.

Record ChatRequest : Type := mkChatRequest {
  question : jsstring;
  include_sources : bool
}.

Inductive body : Type :=
| NoBody
| JsonBody (r : ChatRequest)
| FormData (field : jsstring) (f : File).

(** What a handler does to the outside world, in program order. *)
Inductive effect : Type :=
| PreventDefault
| AxiosPost (url : jsstring) (b : body)
| AxiosGet (url : jsstring)
| ConsoleError (label : jsstring) (e : JsError)
| ToastError (title description : jsstring)
| Toast (message : vnode) (className : option string)
| ScrollIntoView.

Definition is_request (e : effect) : bool :=
  match e with
  | AxiosPost _ _ | AxiosGet _ => true
  | _ => false
  end.

(** The HTTP requests among the effects of a handler. *)
Definition requests (es : list effect) : list effect :=
  List.filter is_request es.

(* ===================================================================== *)
(** ** components/ChatInterface.tsx *)
(* ===================================================================== *)

Module ChatInterface.

(** The four [useState] cells. *)
Record State : Type := mkState {
  messages : list Message;
  input : jsstring;
  loading : bool;
  showSources : bool
}.

(** [useState(initialMessages)], [useState('')], [useState(false)],
    [useState(true)]. *)
Definition init (initialMessages : list Message) : State :=
  {| messages := initialMessages; input := [];
     loading := false; showSources := true |}.

Definition setMessages (v : list Message) (c : State) : State :=
  {| messages := v; input := input c;
     loading := loading c; showSources := showSources c |}.
Definition setInput (v : jsstring) (c : State) : State :=
  {| messages := messages c; input := v;
     loading := loading c; showSources := showSources c |}.
Definition setLoading (v : bool) (c : State) : State :=
  {| messages := messages c; input := input c;
     loading := v; showSources := showSources c |}.
Definition setShowSources (v : bool) (c : State) : State :=
  {| messages := messages c; input := input c;
     loading := loading c; showSources := v |}.

(** Modelled from the spec: the body of a resolved Ask call,
    [{answer: string, sources?: [{source, page, snippet}]}]; the route
    that builds it is not among the sources, the component reads
    [response.data.answer] and [response.data.sources]. *)
Record Response : Type := mkResponse {
  answer : jsstring;
  resp_sources : option (list Source)
}.

Definition chat_url : jsstring := lit "http://localhost:8000/chat/".

Definition error_content : jsstring :=
  lit "Sorry, there was an error processing your question. Please try again.".

(** What the rest of [handleSubmit] closes over at its [await]. *)
Record Pending : Type := mkPending {
  updatedMessages : list Message
}.

Record Started : Type := mkStarted {
  next : State;
  effects : list effect;
  pending : option Pending
}.

(** [handleSubmit] up to the [await axios.post(...)].  [c] is the state of
    the render the handler belongs to. *)
Definition handleSubmit (c : State) : Started :=
  if negb (truthy (trim (input c))) || loading c then
    {| next := c; effects := [PreventDefault]; pending := None |}
  else
    let userMessage :=
      {| role := user; content := input c; sources := None |} in
    let updatedMessages := messages c ++ [userMessage] in
    let c1 := setMessages updatedMessages c in
    let c2 := setInput [] c1 in
    let c3 := setLoading true c2 in
    {| next := c3;
       effects :=
         [PreventDefault;
          AxiosPost chat_url
            (JsonBody {| question := trim (input c);
                         include_sources := showSources c |})];
       pending := Some {| updatedMessages := updatedMessages |} |}.

(** The [try] block after the [await], then [finally]; [c] is the state
    when the promise resolves. *)
Definition handleSubmit_resolved (k : Pending) (r : Response) (c : State)
  : State * list effect :=
  let assistantMessage :=
    {| role := assistant; content := answer r; sources := resp_sources r |} in
  let finalMessages := updatedMessages k ++ [assistantMessage] in
  let c1 := setMessages finalMessages c in
  (setLoading false c1, []).

(** The [catch] block, then [finally]. *)
Definition handleSubmit_rejected (k : Pending) (error : JsError) (c : State)
  : State * list effect :=
  let errorMessage :=
    {| role := assistant; content := error_content; sources := None |} in
  let c1 := setMessages (updatedMessages k ++ [errorMessage]) c in
  (setLoading false c1,
   [ConsoleError (lit "Error getting response:") error;
    ToastError (lit "Error")
      (lit "Failed to get a response. Please try again.")]).

(** [onChange] of the input and [onCheckedChange] of the switch. *)
Definition onInputChange (v : jsstring) (c : State) : State := setInput v c.
Definition onCheckedChange (v : bool) (c : State) : State :=
  setShowSources v c.

(** The effect on [[initialMessages]]. *)
Definition effect_initialMessages (initialMessages : list Message)
    (c : State) : State :=
  if (0 <? length initialMessages)%nat then setMessages initialMessages c
  else c.

(** *** What the component returns *)

(** One entry of the sources block. *)
Definition render_source (s : Source) : vnode :=
  el "div" "text-xs bg-muted p-2 rounded"
    [ el "div" "font-medium"
        [VText (source s); VText (lit " (Page "); VNum (page s + 1);
         VText (lit ")")];
      el "div" "text-muted-foreground mt-1 line-clamp-2"
        [VText (snippet s)] ].

(** [message.role === 'assistant' && message.sources &&
     message.sources.length > 0 && (...)] *)
Definition render_sources (m : Message) : vnode :=
  match role m, sources m with
  | assistant, Some srcs =>
      if (0 <? length srcs)%nat then
        el "div" "mt-3 pt-3 border-t border-border"
          [ el "p" "text-xs font-semibold text-muted-foreground mb-2"
              [VText (lit "Sources:")];
            el "div" "space-y-2" [VFrag (render_source <$> srcs)] ]
      else VNone
  | _, _ => VNone
  end.

Definition render_message (m : Message) : vnode :=
  el "div"
    ("flex " ++ (if Role_eqb (role m) user then "justify-end"
                 else "justify-start"))%string
    [ el "Card"
        ("max-w-3xl " ++ (if Role_eqb (role m) user
                          then "bg-primary text-primary-foreground"
                          else ""%string))%string
        [ el "CardContent" "p-4"
            [ el "div" "prose prose-sm dark:prose-invert"
                [VElem "ReactMarkdown" [] [VText (content m)]];
              render_sources m ] ] ].

Definition dot (delay : list (string * attr)) : vnode :=
  VElem "div"
    (("className"%string,
      AStr "h-2 w-2 bg-muted-foreground rounded-full animate-bounce")
       :: delay) [].

Definition render_loading : vnode :=
  el "div" "flex justify-start"
    [ VElem "Card" []
        [ el "CardContent" "p-4"
            [ el "div" "flex space-x-2 items-center"
                [ el "div" "flex space-x-1"
                    [ dot [];
                      dot [("animationDelay"%string, AStr "0.2s")];
                      dot [("animationDelay"%string, AStr "0.4s")] ];
                  el "span" "text-sm text-muted-foreground ml-2"
                    [VText (lit "Thinking...")] ] ] ] ].

Definition quoted (s : jsstring) : jsstring := [34%N] ++ s ++ [34%N].

Definition render_empty : vnode :=
  el "div" "text-center text-muted-foreground mt-10"
    [ el "p" "text-lg font-semibold"
        [VText (lit "Ask a question about your documents")];
      el "p" "text-sm"
        [VText (lit "For example: "
                ++ quoted (lit "What are the key findings in this research paper?")
                ++ lit " or "
                ++ quoted (lit "Summarize the main points of chapter 3"))] ].

Definition render_form (c : State) : vnode :=
  VElem "form" [("className"%string, AStr "flex items-center space-x-2")]
    [ VElem "Input"
        [("type"%string, AStr "text");
         ("value"%string, AText (input c));
         ("placeholder"%string, AStr "Ask a question about your documents...");
         ("className"%string, AStr "flex-1");
         ("disabled"%string, ABool (loading c))] [];
      VElem "Button"
        [("type"%string, AStr "submit");
         ("size"%string, AStr "icon");
         ("disabled"%string,
          ABool (loading c || negb (truthy (trim (input c)))))]
        [el "Send" "h-4 w-4" []] ].

Definition render (c : State) : vnode :=
  el "div" "flex flex-col h-full"
    [ el "div" "flex-1 overflow-y-auto p-4 space-y-4"
        [ (if (length (messages c) =? 0)%nat then render_empty
           else VFrag (render_message <$> messages c));
          (if loading c then render_loading else VNone);
          VElem "div" [] [] ];
      el "div" "border-t border-border p-4"
        [ el "div" "flex items-center mb-3"
            [ el "div" "flex items-center space-x-2"
                [ VElem "Switch"
                    [("id"%string, AStr "show-sources");
                     ("checked"%string, ABool (showSources c))] [];
                  VElem "Label"
                    [("htmlFor"%string, AStr "show-sources");
                     ("className"%string, AStr "text-sm text-muted-foreground")]
                    [VText (lit "Show sources in responses")] ] ];
          render_form c ] ].

End ChatInterface.

(* ===================================================================== *)
(** ** components/DocumentList.tsx *)
(* ===================================================================== *)

(** [type Document] *)
Record Document : Type := mkDocument {
  filename : jsstring;
  num_pages : Z
}.

Module DocumentList.

(** [s.split(sep)] for a one-character separator. *)
Fixpoint split (sep : N) (s : jsstring) : list jsstring :=
  match s with
  | [] => [[]]
  | c :: s' =>
      if (c =? sep)%N then [] :: split sep s'
      else match split sep s' with
           | [] => [[c]]
           | w :: ws => (c :: w) :: ws
           end
  end.

(** The [useState] cells; [documents] is a [Record<string, Document>], an
    object used as a map from document id to document. *)
Record State : Type := mkState {
  documents : gmap jsstring Document;
  loading : bool;
  summarizing : option jsstring;
  summary : option jsstring;
  summaryDialogOpen : bool;
  currentFile : jsstring
}.

Definition init : State :=
  {| documents := ∅; loading := true; summarizing := None;
     summary := None; summaryDialogOpen := false; currentFile := [] |}.

Definition setDocuments v (d : State) : State :=
  {| documents := v; loading := loading d; summarizing := summarizing d;
     summary := summary d; summaryDialogOpen := summaryDialogOpen d;
     currentFile := currentFile d |}.
Definition setLoading v (d : State) : State :=
  {| documents := documents d; loading := v; summarizing := summarizing d;
     summary := summary d; summaryDialogOpen := summaryDialogOpen d;
     currentFile := currentFile d |}.
Definition setSummarizing v (d : State) : State :=
  {| documents := documents d; loading := loading d; summarizing := v;
     summary := summary d; summaryDialogOpen := summaryDialogOpen d;
     currentFile := currentFile d |}.
Definition setSummary v (d : State) : State :=
  {| documents := documents d; loading := loading d;
     summarizing := summarizing d; summary := v;
     summaryDialogOpen := summaryDialogOpen d;
     currentFile := currentFile d |}.
Definition setSummaryDialogOpen v (d : State) : State :=
  {| documents := documents d; loading := loading d;
     summarizing := summarizing d; summary := summary d;
     summaryDialogOpen := v; currentFile := currentFile d |}.
Definition setCurrentFile v (d : State) : State :=
  {| documents := documents d; loading := loading d;
     summarizing := summarizing d; summary := summary d;
     summaryDialogOpen := summaryDialogOpen d; currentFile := v |}.

(** The props the component calls back. *)
Inductive callback : Type :=
| onRefreshComplete
| onSummarize (summary : jsstring).

Record Out : Type := mkOut {
  next : State;
  effects : list effect;
  callbacks : list callback
}.

Definition documents_url : jsstring := lit "http://localhost:8000/documents/".

(** [fetchDocuments] up to its [await]. *)
Definition fetchDocuments (d : State) : Out :=
  {| next := setLoading true d;
     effects := [AxiosGet documents_url];
     callbacks := [] |}.

(** [setDocuments(response.data)], then [finally]. *)
Definition fetchDocuments_resolved (data : gmap jsstring Document)
    (d : State) : Out :=
  let d1 := setDocuments data d in
  {| next := setLoading false d1;
     effects := [];
     callbacks := [onRefreshComplete] |}.

Definition fetchDocuments_rejected (error : JsError) (d : State) : Out :=
  {| next := setLoading false d;
     effects :=
       [ConsoleError (lit "Error fetching documents:") error;
        ToastError (lit "Error Loading Documents")
          (lit "Could not load your documents. Please try again.")];
     callbacks := [onRefreshComplete] |}.

(** The effect on [[refresh]]. *)
Definition effect_refresh (refresh : bool) (d : State) : Out :=
  if refresh then fetchDocuments d
  else {| next := d; effects := []; callbacks := [] |}.

Definition summarize_url (docId : jsstring) : jsstring :=
  lit "http://localhost:8000/documents/" ++ docId ++ lit "/summarize".

(** [handleSummarize(docId, filename)] up to its [await]. *)
Definition handleSummarize (docId filename : jsstring) (d : State) : Out :=
  let d1 := setSummarizing (Some docId) d in
  let d2 := setCurrentFile filename d1 in
  {| next := d2;
     effects := [AxiosPost (summarize_url docId) NoBody];
     callbacks := [] |}.

(** Modelled from the spec: the body of a resolved Summarize call,
    [{summary: string}]; the route is not among the sources, the
    component reads [response.data.summary]. *)
Record Response : Type := mkResponse {
  resp_summary : jsstring
}.

Definition handleSummarize_resolved (r : Response) (d : State) : Out :=
  let summaryText := resp_summary r in
  let d1 := setSummary (Some summaryText) d in
  let d2 := setSummaryDialogOpen true d1 in
  {| next := setSummarizing None d2;
     effects := [];
     callbacks := [onSummarize summaryText] |}.

Definition handleSummarize_rejected (error : JsError) (d : State) : Out :=
  {| next := setSummarizing None d;
     effects :=
       [ConsoleError (lit "Error summarizing document:") error;
        ToastError (lit "Summarization Failed")
          (lit "Could not summarize the document. Please try again.")];
     callbacks := [] |}.

(** *** What the component returns *)

(** [Object.keys(documents).length] *)
Definition documentCount (d : State) : nat := size (documents d).

(** One [Card] of the list, for one [[id, doc]] of
    [Object.entries(documents)]. *)
Definition render_document (d : State) (e : jsstring * Document) : vnode :=
  let '(id, doc) := e in
  let busy := bool_decide (summarizing d = Some id) in
  el "Card" "overflow-hidden"
    [ el "div" "p-3 flex items-center justify-between"
        [ el "div" "flex items-center"
            [ el "File" "h-4 w-4 text-muted-foreground mr-2" [];
              el "div" "text-sm"
                [ el "p" "font-medium truncate max-w-[150px]"
                    [VText (filename doc)];
                  el "p" "text-xs text-muted-foreground"
                    [VNum (num_pages doc); VText (lit " pages")] ] ];
          VElem "Button"
            [("variant"%string, AStr "outline");
             ("size"%string, AStr "sm");
             ("disabled"%string, ABool busy);
             ("className"%string, AStr "h-8 text-xs")]
            [ if busy then
                VFrag [el "RefreshCw" "mr-1 h-3 w-3 animate-spin" [];
                       VText (lit "Summarizing...")]
              else
                VFrag [el "FileText" "mr-1 h-3 w-3" [];
                       VText (lit "Summarize")] ] ] ].

Definition render_dialog (d : State) : vnode :=
  VElem "Dialog" [("open"%string, ABool (summaryDialogOpen d))]
    [ el "DialogContent" "max-w-2xl"
        [ VElem "DialogHeader" []
            [ VElem "DialogTitle" [] [VText (lit "Document Summary")];
              VElem "DialogDescription" []
                [VText (lit "Summary of "); VText (currentFile d)] ];
          el "div" "mt-4 prose prose-sm max-h-[60vh] overflow-y-auto"
            [ match summary d with
              | None => VNone
              | Some s =>
                  if truthy s then
                    VFrag ((fun line => VElem "p" [] [VText line])
                             <$> split 10 s)
                  else VText s
              end ] ] ].

Definition render (d : State) : vnode :=
  if loading d then
    el "div" "p-4 text-center text-muted-foreground"
      [ el "RefreshCw" "animate-spin h-5 w-5 mx-auto mb-2" [];
        VElem "p" [] [VText (lit "Loading documents...")] ]
  else if (documentCount d =? 0)%nat then
    el "div" "p-4 text-center text-muted-foreground"
      [ VElem "p" [] [VText (lit "No documents uploaded yet")] ]
  else
    el "div" "p-4"
      [ el "h3" "text-sm font-medium mb-3"
          [VText (lit "Uploaded Documents ("); VNum (Z.of_nat (documentCount d));
           VText (lit ")")];
        el "div" "space-y-2"
          [VFrag (render_document d <$> map_to_list (documents d))];
        render_dialog d ].

End DocumentList.

(* ===================================================================== *)
(** ** components/DocumentUpload.tsx *)
(* ===================================================================== *)

(** The [useDropzone] hook of react-dropzone, as far as the options the
    component passes decide which files reach [onDrop].  The hook is a
    library, not code of the repository: this is what it does with its
    [accept] and [maxFiles] options ([multiple], [minSize], [maxSize] and
    [validator] are left at their defaults).  The files of a drop are the
    [File] objects as the hook gets them from its file selector, which has
    already filled in an empty [type] from the extension of the name. *)
Module Dropzone.

Record Options : Type := mkOptions {
  accept : list (jsstring * list jsstring);
  maxFiles : nat
}.

(** [s.toLowerCase()] on the ASCII letters; the comparisons below are
    with ASCII strings, which no other letter lowers to. *)
Definition toLowerCase (s : jsstring) : jsstring :=
  (fun c => if ((65 <=? c) && (c <=? 90))%N then (c + 32)%N else c) <$> s.

Definition endsWith (s suf : jsstring) : bool := bool_decide (suf `suffix_of` s).

(** [s.replace(/\/.*$/, '')]: what comes before the first slash. *)
Fixpoint beforeSlash (s : jsstring) : jsstring :=
  match s with
  | [] => []
  | c :: s' => if (c =? 47)%N then [] else c :: beforeSlash s'
  end.

(** The accept attribute: each MIME type followed by its extensions.  (The
    library drops entries that are neither; the entries of the component
    are a MIME type and an extension.) *)
Definition acceptAttr (o : Options) : list jsstring :=
  flat_map (fun '(mime, exts) => mime :: exts) (accept o).

(** [accepts(file, acceptedFiles)] of attr-accept: with no entry every
    file passes; otherwise some entry must match, an extension against
    the end of the name, [type/*] against the part of the MIME type before
    the slash, anything else against the whole MIME type, all in lower
    case. *)
Definition accepts (f : File) (entries : list jsstring) : bool :=
  match entries with
  | [] => true
  | _ :: _ =>
      let fileName := file_name f in
      let mimeType := toLowerCase (file_type f) in
      let baseMimeType := beforeSlash mimeType in
      existsb
        (fun type =>
           let validType := toLowerCase (trim type) in
           match validType with
           | 46%N :: _ => endsWith (toLowerCase fileName) validType
           | _ =>
               if endsWith validType [47; 42]%N
               then bool_decide (baseMimeType = beforeSlash validType)
               else bool_decide (mimeType = validType)
           end)
        entries
  end.

(** [fileAccepted(file, accept)]: a file whose type is
    [application/x-moz-file] passes whatever [accept] says. *)
Definition fileAccepted (o : Options) (f : File) : bool :=
  bool_decide (file_type f = lit "application/x-moz-file")
  || accepts f (acceptAttr o).

(** The [acceptedFiles] handed to [onDrop] for a drop of [files]: the
    files that pass; when [maxFiles] is at least 1 and more files than
    that pass, every file is rejected. *)
Definition acceptedFiles (o : Options) (files : list File) : list File :=
  let ok := List.filter (fileAccepted o) files in
  if (1 <=? maxFiles o)%nat && (maxFiles o <? length ok)%nat then [] else ok.

End Dropzone.

Module DocumentUpload.

Record Status : Type := mkStatus {
  success : bool;
  message : jsstring
}.

Record State : Type := mkState {
  uploading : bool;
  uploadStatus : option Status
}.

Definition init : State := {| uploading := false; uploadStatus := None |}.

Definition setUploading v (u : State) : State :=
  {| uploading := v; uploadStatus := uploadStatus u |}.
Definition setUploadStatus v (u : State) : State :=
  {| uploading := uploading u; uploadStatus := v |}.

Inductive callback : Type := onUploadSuccess.

Record Out : Type := mkOut {
  next : State;
  effects : list effect;
  callbacks : list callback
}.

Definition upload_url : jsstring :=
  lit "http://localhost:8000/documents/upload".

(** The options given to [useDropzone]. *)
Definition options : Dropzone.Options :=
  {| Dropzone.accept := [(lit "application/pdf", [lit ".pdf"])];
     Dropzone.maxFiles := 1 |}.

(** [onDrop(acceptedFiles)] up to its [await]; the multipart body holds
    [acceptedFiles[0]] under the name [file]. *)
Definition onDrop (acceptedFiles : list File) (u : State) : Out :=
  match acceptedFiles with
  | [] => {| next := u; effects := []; callbacks := [] |}
  | f0 :: _ =>
      let u1 := setUploading true u in
      let u2 := setUploadStatus None u1 in
      {| next := u2;
         effects := [AxiosPost upload_url (FormData (lit "file") f0)];
         callbacks := [] |}
  end.

(** A drop on the zone: the hook filters, then calls [onDrop]. *)
Definition drop (files : list File) (u : State) : Out :=
  onDrop (Dropzone.acceptedFiles options files) u.

(** Modelled from the spec: the body of a resolved Upload call,
    [{filename, num_chunks}]; the route is not among the sources, the
    component reads [response.data.filename] and
    [response.data.num_chunks]. *)
Record Response : Type := mkResponse {
  resp_filename : jsstring;
  resp_num_chunks : Z
}.

Definition success_message (r : Response) : jsstring :=
  lit "Successfully processed " ++ resp_filename r ++ lit " with "
  ++ Number_toString (resp_num_chunks r) ++ lit " text chunks".

Definition onDrop_resolved (r : Response) (u : State) : Out :=
  let u1 :=
    setUploadStatus
      (Some {| success := true; message := success_message r |}) u in
  {| next := setUploading false u1;
     effects :=
       [Toast
          (VElem "div" []
             [ VElem "strong" [] [VText (lit "Document Uploaded")];
               VElem "div" []
                 [VText (lit "Successfully processed ");
                  VText (resp_filename r)] ])
          None];
     callbacks := [onUploadSuccess] |}.

Definition onDrop_rejected (error : JsError) (u : State) : Out :=
  let u1 :=
    setUploadStatus
      (Some {| success := false;
               message := lit "Error uploading document. Please try again." |})
      u in
  {| next := setUploading false u1;
     effects :=
       [ConsoleError (lit "Upload error:") error;
        Toast
          (VElem "div" []
             [ VElem "strong" [] [VText (lit "Upload Failed")];
               VElem "div" []
                 [VText (lit "There was an error uploading your document.")] ])
          (Some "bg-destructive text-destructive-foreground"%string)];
     callbacks := [] |}.

(** *** What the component returns; [isDragActive] comes from the hook. *)

Definition render_status (u : State) : vnode :=
  match uploadStatus u with
  | None => VNone
  | Some st =>
      el "div"
        ("mt-4 p-3 rounded-lg text-sm flex items-center space-x-2 "
         ++ (if success st then "bg-green-50 text-green-700"
             else "bg-destructive/10 text-destructive"))%string
        [ (if success st then el "CheckCircle" "h-5 w-5" []
           else el "AlertCircle" "h-5 w-5" []);
          VElem "span" [] [VText (message st)] ]
  end.

Definition render (isDragActive : bool) (u : State) : vnode :=
  el "div" "w-full p-4"
    [ VElem "Card" []
        [ el "CardContent" "pt-6"
            [ el "div"
                ("border-2 border-dashed rounded-lg p-6 text-center cursor-pointer transition "
                 ++ (if isDragActive then "border-primary bg-primary/5"
                     else "border-gray-300 hover:border-primary/50"))%string
                [ VElem "input" [] [];
                  el "div" "flex flex-col items-center justify-center space-y-2"
                    [ (if isDragActive
                       then el "FileUp" "h-10 w-10 text-primary/70" []
                       else el "Upload" "h-10 w-10 text-muted-foreground" []);
                      el "p" "text-sm text-muted-foreground"
                        [VText (if isDragActive
                                then lit "Drop the PDF here..."
                                else lit "Drag & drop a PDF, or click to select")];
                      el "p" "text-xs text-muted-foreground/70"
                        [VText (lit "Only PDF files are supported")] ] ];
              (if uploading u then
                 el "div" "mt-4 text-sm text-center text-muted-foreground"
                   [ el "div" "flex items-center justify-center space-x-2"
                       [ el "div"
                           "animate-spin rounded-full h-4 w-4 border-b-2 border-primary"
                           [];
                         VElem "span" []
                           [VText (lit "Uploading and processing document...")] ] ]
               else VNone);
              render_status u ] ] ].

End DocumentUpload.

(* ===================================================================== *)
(** ** app/page.tsx *)
(* ===================================================================== *)

Module Home.

Record State : Type := mkState {
  refreshDocuments : bool;
  messages : list Message
}.

Definition init : State := {| refreshDocuments := false; messages := [] |}.

Definition setRefreshDocuments v (h : State) : State :=
  {| refreshDocuments := v; messages := messages h |}.
Definition setMessages v (h : State) : State :=
  {| refreshDocuments := refreshDocuments h; messages := v |}.

Definition handleUploadSuccess (h : State) : State :=
  setRefreshDocuments true h.

Definition handleRefreshComplete (h : State) : State :=
  setRefreshDocuments false h.

Definition handleSummarize (summary : jsstring) (h : State) : State :=
  let newMessages :=
    [ {| role := user; content := lit "Please summarize this document.";
         sources := None |};
      {| role := assistant; content := summary; sources := None |} ] in
  setMessages newMessages h.

End Home.

(** The page as a whole: [Home] with its three children mounted, and the
    HTTP calls that have been issued and not yet settled.  React renders
    between two events, so a handler runs on the cells as they are when
    its event arrives; the continuation of an [async] handler keeps the
    variables it closed over and writes to the cells as they are when its
    promise settles.  One event is one call of a handler or one settled
    promise: two promises settling within one batch of React are not an
    event of this model. *)
Module App.

Inductive request : Type :=
| RChat (k : ChatInterface.Pending)
| RFetch
| RSummarize
| RUpload.

Record State : Type := mkState {
  home : Home.State;
  chat : ChatInterface.State;
  docs : DocumentList.State;
  upload : DocumentUpload.State;
  inflight : list request
}.

Definition set_home v (a : State) : State :=
  {| home := v; chat := chat a; docs := docs a; upload := upload a;
     inflight := inflight a |}.
Definition set_chat v (a : State) : State :=
  {| home := home a; chat := v; docs := docs a; upload := upload a;
     inflight := inflight a |}.
Definition set_docs v (a : State) : State :=
  {| home := home a; chat := chat a; docs := v; upload := upload a;
     inflight := inflight a |}.
Definition set_upload v (a : State) : State :=
  {| home := home a; chat := chat a; docs := docs a; upload := v;
     inflight := inflight a |}.
Definition set_inflight v (a : State) : State :=
  {| home := home a; chat := chat a; docs := docs a; upload := upload a;
     inflight := v |}.

(** One in-flight call per request among the effects of a handler. *)
Definition issue (r : request) (es : list effect) (a : State) : State :=
  set_inflight (inflight a ++ ((fun _ => r) <$> requests es)) a.

(** *** Renders and effects between the components *)

(** ChatInterface's [messages] cell was set.  In the render that follows,
    the effect on [[messages, onMessagesChange]] passes the array to
    [onMessagesChange], which is Home's [setMessages]; Home renders again
    with that array as [initialMessages], and the effect on
    [[initialMessages]] runs. *)
Definition chat_messages_set (a : State) : State :=
  let h := Home.setMessages (ChatInterface.messages (chat a)) (home a) in
  let c := ChatInterface.effect_initialMessages (Home.messages h) (chat a) in
  set_chat c (set_home h a).

(** Home's [messages] cell was set to a new array.  ChatInterface renders
    with it as [initialMessages] and the effect on [[initialMessages]]
    runs; when that sets the [messages] cell, the above follows. *)
Definition home_messages_set (a : State) : State :=
  let initialMessages := Home.messages (home a) in
  let c := ChatInterface.effect_initialMessages initialMessages (chat a) in
  if (0 <? length initialMessages)%nat then chat_messages_set (set_chat c a)
  else a.

(** Home's [refreshDocuments] cell was set by [h'].  When the value is the
    one it had there is no render; otherwise DocumentList renders with
    the new [refresh] and its effect on [[refresh]] runs. *)
Definition home_refresh_set (h' : Home.State) (a : State) : State :=
  if Bool.eqb (Home.refreshDocuments (home a)) (Home.refreshDocuments h')
  then set_home h' a
  else
    let o := DocumentList.effect_refresh (Home.refreshDocuments h') (docs a) in
    issue RFetch (DocumentList.effects o)
      (set_docs (DocumentList.next o) (set_home h' a)).

Definition docs_callback (a : State) (cb : DocumentList.callback) : State :=
  match cb with
  | DocumentList.onRefreshComplete =>
      home_refresh_set (Home.handleRefreshComplete (home a)) a
  | DocumentList.onSummarize s =>
      home_messages_set (set_home (Home.handleSummarize s (home a)) a)
  end.

Definition upload_callback (a : State) (cb : DocumentUpload.callback) : State :=
  match cb with
  | DocumentUpload.onUploadSuccess =>
      home_refresh_set (Home.handleUploadSuccess (home a)) a
  end.

Definition run_docs (r : request) (o : DocumentList.Out) (a : State) : State :=
  foldl docs_callback
    (issue r (DocumentList.effects o) (set_docs (DocumentList.next o) a))
    (DocumentList.callbacks o).

Definition run_upload (o : DocumentUpload.Out) (a : State) : State :=
  foldl upload_callback
    (issue RUpload (DocumentUpload.effects o)
       (set_upload (DocumentUpload.next o) a))
    (DocumentUpload.callbacks o).

(** *** Events *)

Inductive outcome (A : Type) : Type :=
| Resolved (v : A)
| Rejected (e : JsError).
#[global] Arguments Resolved {A} v.
#[global] Arguments Rejected {A} e.

Inductive reply : Type :=
| ChatReply (o : outcome ChatInterface.Response)
| FetchReply (o : outcome (gmap jsstring Document))
| SummarizeReply (o : outcome DocumentList.Response)
| UploadReply (o : outcome DocumentUpload.Response).

Inductive event : Type :=
| InputChange (v : jsstring)
| CheckedChange (v : bool)
| Submit
| ClickSummarize (id : jsstring)
| Drop (files : list File)
| Settle (i : nat) (r : reply).

(** The page after its first render: the mount effect of DocumentList has
    called [fetchDocuments]; ChatInterface got Home's empty array. *)
Definition init : State :=
  let o := DocumentList.fetchDocuments DocumentList.init in
  issue RFetch (DocumentList.effects o)
    {| home := Home.init;
       chat := ChatInterface.init (Home.messages Home.init);
       docs := DocumentList.next o;
       upload := DocumentUpload.init;
       inflight := [] |}.

(** One event.  [None]: the event cannot happen in this state (the button
    is not on the screen or is disabled, the reply matches no call in
    flight). *)
Definition dispatch (e : event) (a : State) : option State :=
  match e with
  | InputChange v =>
      Some (set_chat (ChatInterface.onInputChange v (chat a)) a)
  | CheckedChange v =>
      Some (set_chat (ChatInterface.onCheckedChange v (chat a)) a)
  | Submit =>
      let s := ChatInterface.handleSubmit (chat a) in
      match ChatInterface.pending s with
      | None => Some (set_chat (ChatInterface.next s) a)
      | Some k =>
          Some (chat_messages_set
                  (issue (RChat k) (ChatInterface.effects s)
                     (set_chat (ChatInterface.next s) a)))
      end
  | ClickSummarize id =>
      if DocumentList.loading (docs a) then None
      else
        match DocumentList.documents (docs a) !! id with
        | None => None
        | Some doc =>
            if bool_decide (DocumentList.summarizing (docs a) = Some id)
            then None
            else Some (run_docs RSummarize
                         (DocumentList.handleSummarize id (filename doc) (docs a))
                         a)
        end
  | Drop files => Some (run_upload (DocumentUpload.drop files (upload a)) a)
  | Settle i r =>
      let a' := set_inflight (delete i (inflight a)) a in
      match inflight a !! i, r with
      | Some (RChat k), ChatReply (Resolved v) =>
          let c := (ChatInterface.handleSubmit_resolved k v (chat a)).1 in
          Some (chat_messages_set (set_chat c a'))
      | Some (RChat k), ChatReply (Rejected err) =>
          let c := (ChatInterface.handleSubmit_rejected k err (chat a)).1 in
          Some (chat_messages_set (set_chat c a'))
      | Some RFetch, FetchReply (Resolved data) =>
          Some (run_docs RFetch
                  (DocumentList.fetchDocuments_resolved data (docs a)) a')
      | Some RFetch, FetchReply (Rejected err) =>
          Some (run_docs RFetch
                  (DocumentList.fetchDocuments_rejected err (docs a)) a')
      | Some RSummarize, SummarizeReply (Resolved v) =>
          Some (run_docs RSummarize
                  (DocumentList.handleSummarize_resolved v (docs a)) a')
      | Some RSummarize, SummarizeReply (Rejected err) =>
          Some (run_docs RSummarize
                  (DocumentList.handleSummarize_rejected err (docs a)) a')
      | Some RUpload, UploadReply (Resolved v) =>
          Some (run_upload (DocumentUpload.onDrop_resolved v (upload a)) a')
      | Some RUpload, UploadReply (Rejected err) =>
          Some (run_upload (DocumentUpload.onDrop_rejected err (upload a)) a')
      | _, _ => None
      end
  end.

Inductive reachable : State -> Prop :=
| reachable_init : reachable init
| reachable_step a e a' :
    reachable a -> dispatch e a = Some a' -> reachable a'.

(** A sequence of events, as long as each can happen. *)
Fixpoint run (es : list event) (a : State) : option State :=
  match es with
  | [] => Some a
  | e :: es' =>
      match dispatch e a with
      | Some a' => run es' a'
      | None => None
      end
  end.

Definition is_chat (r : request) : bool :=
  match r with RChat _ => true | _ => false end.

(** The chat requests in flight. *)
Definition chat_inflight (a : State) : list request :=
  List.filter is_chat (inflight a).

End App.

(* ===================================================================== *)
(** ** The RAG service behind the chat endpoint *)
(* ===================================================================== *)

Module RagService.

(** Modelled from the spec: an entry of the vector index, the embedding
    of a chunk with the metadata of a citation ([page_number] is 0-based);
    the index and the store are not among the sources. *)
Record Entry (vector : Type) : Type := mkEntry {
  entry_vector : vector;
  document_id : jsstring;
  chunk_index : nat;
  page_number : Z;
  entry_snippet : jsstring
}.
#[global] Arguments mkEntry {vector}.
#[global] Arguments entry_vector {vector}.
#[global] Arguments document_id {vector}.
#[global] Arguments chunk_index {vector}.
#[global] Arguments page_number {vector}.
#[global] Arguments entry_snippet {vector}.

(** Modelled from the spec: the DocumentStore, the ingested documents by
    id and the entries of their chunks. *)
Record DocumentStore (vector : Type) : Type := mkStore {
  store_documents : gmap jsstring Document;
  store_index : list (Entry vector)
}.
#[global] Arguments mkStore {vector}.
#[global] Arguments store_documents {vector}.
#[global] Arguments store_index {vector}.

(** Modelled from the spec: the Generator as a test double, the number of
    calls it has received. *)
Record Generator : Type := mkGenerator { calls : nat }.

(** Code that may call the Generator. *)
Definition Gen (A : Type) : Type := Generator -> A * Generator.
Definition ret {A} (x : A) : Gen A := fun g => (x, g).
Definition bind {A B} (m : Gen A) (f : A -> Gen B) : Gen B :=
  fun g => let '(x, g') := m g in f x g'.

Notation "'let*' x ':=' m 'in' k" := (bind m (fun x => k))
  (at level 10, x name, m at level 100, k at level 200, only parsing).

Section Service.

Variable vector : Type.
(** The session's Embedder. *)
Variable embed : jsstring -> vector.
(** DocumentStore.search over the whole corpus, best first. *)
Variable search : DocumentStore vector -> vector -> nat -> list (Entry vector).
(** The text the language model gives for a question and its context. *)
Variable complete : jsstring -> list (Entry vector) -> jsstring.
(** The fixed answer of an empty corpus. *)
Variable no_documents_answer : jsstring.

Definition top_k : nat := 4.

(** Modelled from the spec: Generator.answer, one call to the model. *)
Definition Generator_answer (q : jsstring) (context : list (Entry vector))
  : Gen jsstring :=
  fun g => (complete q context, {| calls := S (calls g) |}).

Definition corpus_empty (s : DocumentStore vector) : bool :=
  bool_decide (store_documents s = ∅).

(** Modelled from the spec: the citation of a retrieved chunk, its
    source filename, its page surfaced 1-based, its snippet. *)
Definition citation (s : DocumentStore vector) (e : Entry vector) : Source :=
  {| source := match store_documents s !! document_id e with
               | Some d => filename d
               | None => []
               end;
     page := page_number e + 1;
     snippet := entry_snippet e |}.

(** Modelled from the spec: RagService.ask (section 4.6); the service
    is not among the sources. *)
Definition ask (s : DocumentStore vector) (q : jsstring)
    (include_sources : bool) : Gen ChatInterface.Response :=
  if corpus_empty s then
    ret {| ChatInterface.answer := no_documents_answer;
           ChatInterface.resp_sources :=
             if include_sources then Some [] else None |}
  else
    let retrieved := search s (embed q) top_k in
    let* text := Generator_answer q retrieved in
    ret {| ChatInterface.answer := text;
           ChatInterface.resp_sources :=
             if include_sources then Some (citation s <$> retrieved)
             else None |}.

End Service.

End RagService.

(* ===================================================================== *)
(** ** Vocabulary of the properties *)
(* ===================================================================== *)

(** Empty or whitespace only. *)
Definition blank (s : jsstring) : bool := forallb isWhiteSpace s.

(** What one source entry is expected to put on the screen: the filename,
    the page in parentheses, the snippet. *)
Definition source_leaves (s : Source) : list leaf :=
  [LText (source s); LText (lit " (Page "); LNum (page s + 1);
   LText (lit ")"); LText (snippet s)].

(** A view of the page: the loading flag of the chat and its requests in
    flight. *)
Definition chat_view (a : App.State) : bool * list App.request :=
  (ChatInterface.loading (App.chat a), App.chat_inflight a).

(** The [page] fields of the sources a message cites on the screen. *)
Definition cited_pages (m : Message) : list Z :=
  match role m, sources m with
  | assistant, Some srcs => page <$> srcs
  | _, _ => []
  end.

(** What the sources of a message are expected to put on the screen: for
    an assistant message with a non-empty array, the heading and then the
    entries in the order of the array; nothing otherwise. *)
Definition shown_sources (m : Message) : list leaf :=
  match role m, sources m with
  | assistant, Some (s :: srcs) =>
      LText (lit "Sources:") :: ((s :: srcs) ≫= source_leaves)
  | _, _ => []
  end.

(** What a message is expected to put on the screen. *)
Definition message_leaves (m : Message) : list leaf :=
  LText (content m) :: shown_sources m.

(** A file presented as a PDF: its MIME type is [application/pdf] or its
    name ends in [.pdf]. *)
Definition presented_as_pdf (f : File) : bool :=
  bool_decide (Dropzone.toLowerCase (file_type f) = lit "application/pdf")
  || Dropzone.endsWith (Dropzone.toLowerCase (file_name f)) (lit ".pdf").

(** A file the drop zone of the component lets through: presented as a
    PDF, or of the type [application/x-moz-file]. *)
Definition passes_drop_zone (f : File) : bool :=
  bool_decide (file_type f = lit "application/x-moz-file")
  || presented_as_pdf f.

(** The loading flag of the chat counts its requests in flight. *)
Definition chat_inv (a : App.State) : Prop :=
  length (App.chat_inflight a)
  = if ChatInterface.loading (App.chat a) then 1%nat else 0%nat.

(** A prop of an element, by name. *)
Definition attr_of (name : string) (v : vnode) : option attr :=
  match v with
  | VElem _ props _ =>
      snd <$> List.find (fun p => String.eqb (fst p) name) props
  | _ => None
  end.

(** Whether a handler went as far as its request. *)
Definition started (p : option ChatInterface.Pending) : bool :=
  match p with Some _ => true | None => false end.

(** What the card of a document shows while it is not being summarized. *)
Definition idle_card_leaves (e : jsstring * Document) : list leaf :=
  [LText (filename e.2); LNum (num_pages e.2); LText (lit " pages");
   LText (lit "Summarize")].

(** A conversation made of questions each followed by its answer. *)
Fixpoint paired (ms : list Message) : bool :=
  match ms with
  | [] => true
  | q :: ms1 =>
      match ms1 with
      | [] => false
      | r :: rest =>
          Role_eqb (role q) user && Role_eqb (role r) assistant && paired rest
      end
  end.

(** [xs.join(sep)] for a one-character separator, the inverse of
    [split]. *)
Fixpoint join (sep : N) (l : list jsstring) : jsstring :=
  match l with
  | [] => []
  | x :: rest =>
      match rest with
      | [] => x
      | _ :: _ => x ++ sep :: join sep rest
      end
  end.

(** Every chat request in flight carries a paired conversation followed
    by the question it asks, and an idle chat shows a paired
    conversation. *)
Definition conversation_inv (a : App.State) : Prop :=
  (forall k, App.RChat k ∈ App.inflight a ->
             exists ms q, ChatInterface.updatedMessages k = ms ++ [q]
                          /\ paired ms = true /\ role q = user)
  /\ (ChatInterface.loading (App.chat a) = false ->
      paired (ChatInterface.messages (App.chat a)) = true).


(* ===================================================================== *)
(** * Properties *)
(* ===================================================================== *)

(** ** Strings *)

Section DropWhile.
Context {A : Type} (p : A -> bool).

Lemma dropWhile_split (l : list A) :
  exists pre, l = pre ++ dropWhile p l /\ Forall (fun x => p x = true) pre.
Proof.
  induction l as [|x l [pre [Heq Hpre]]]; simpl.
  - exists []. split; [reflexivity | constructor].
  - destruct (p x) eqn:Hx.
    + exists (x :: pre). split; [simpl; congruence | constructor; assumption].
    + exists []. split; [reflexivity | constructor].
Qed.

Lemma dropWhile_head (l : list A) (x : A) :
  head (dropWhile p l) = Some x -> p x = false.
Proof.
  induction l as [|y l IH]; simpl; [discriminate |].
  destruct (p y) eqn:Hy; [exact IH |].
  simpl. intros [= <-]. exact Hy.
Qed.

Lemma dropWhile_all (l : list A) :
  Forall (fun x => p x = true) l -> dropWhile p l = [].
Proof.
  induction 1 as [|x l Hx _ IH]; simpl; [reflexivity |].
  rewrite Hx. exact IH.
Qed.
End DropWhile.

Lemma trimEnd_split (s : jsstring) :
  exists post, s = trimEnd s ++ post
               /\ Forall (fun c => isWhiteSpace c = true) post.
Proof.
  unfold trimEnd.
  destruct (dropWhile_split isWhiteSpace (reverse s)) as [pre [Heq Hpre]].
  exists (reverse pre). split.
  - rewrite <- reverse_app, <- Heq. symmetry. apply reverse_involutive.
  - rewrite Forall_reverse. exact Hpre.
Qed.

Lemma trimEnd_last (s : jsstring) (c : N) :
  last (trimEnd s) = Some c -> isWhiteSpace c = false.
Proof.
  unfold trimEnd. rewrite last_reverse. apply dropWhile_head.
Qed.

(** What [trim] computes: the input is whitespace, then the result, then
    whitespace, and the result neither starts nor ends with whitespace. *)
Lemma trim_spec (s : jsstring) :
  exists pre post,
    s = pre ++ trim s ++ post
    /\ Forall (fun c => isWhiteSpace c = true) pre
    /\ Forall (fun c => isWhiteSpace c = true) post
    /\ (forall c, head (trim s) = Some c -> isWhiteSpace c = false)
    /\ (forall c, last (trim s) = Some c -> isWhiteSpace c = false).
Proof.
  destruct (dropWhile_split isWhiteSpace s) as [pre [Hs Hpre]].
  destruct (trimEnd_split (trimStart s)) as [post [Ht Hpost]].
  exists pre, post. unfold trim. repeat split; try assumption.
  - rewrite <- Ht. exact Hs.
  - intros c Hc. apply (dropWhile_head isWhiteSpace s).
    fold (trimStart s). rewrite Ht.
    destruct (trimEnd (trimStart s)); [discriminate | exact Hc].
  - apply trimEnd_last.
Qed.

(** A string of whitespace only trims to the empty string. *)
Lemma trim_whitespace (s : jsstring) :
  Forall (fun c => isWhiteSpace c = true) s -> trim s = [].
Proof.
  intros H. unfold trim, trimStart.
  rewrite (dropWhile_all _ _ H). reflexivity.
Qed.

(** ... and only such a string does. *)
Lemma trim_empty_inv (s : jsstring) :
  trim s = [] -> Forall (fun c => isWhiteSpace c = true) s.
Proof.
  intros H.
  destruct (trim_spec s) as (pre & post & Hs & Hpre & Hpost & _).
  rewrite Hs, H. simpl. apply Forall_app. split; assumption.
Qed.

Example trim_example :
  trim (lit "  What color is the sky? ") = lit "What color is the sky?".
Proof. reflexivity. Qed.

Example Number_toString_example :
  Number_toString 12 = lit "12" /\ Number_toString 0 = lit "0".
Proof. split; reflexivity. Qed.

(** ** The sources block of an answer *)

Lemma bind_fmap {A B C} (f : A -> B) (g : B -> list C) (l : list A) :
  (f <$> l) ≫= g = l ≫= (fun x => g (f x)).
Proof.
  induction l as [|x l IH]; [reflexivity |].
  rewrite fmap_cons, !bind_cons, IH. reflexivity.
Qed.

Lemma leaves_el (tag className : string) (cs : list vnode) :
  leaves (el tag className cs) = cs ≫= leaves.
Proof. reflexivity. Qed.

Lemma leaves_render_source (s : Source) :
  leaves (ChatInterface.render_source s) = source_leaves s.
Proof. reflexivity. Qed.

(** The leaves of the sources block, in every case of the guard. *)
Lemma leaves_render_sources (m : Message) :
  leaves (ChatInterface.render_sources m)
  = match role m, sources m with
    | assistant, Some (s :: srcs) =>
        LText (lit "Sources:") :: ((s :: srcs) ≫= source_leaves)
    | _, _ => []
    end.
Proof.
  unfold ChatInterface.render_sources.
  destruct (role m); [reflexivity |].
  destruct (sources m) as [[|s srcs]|]; try reflexivity.
  cbn [length Nat.ltb Nat.leb].
  transitivity
    (LText (lit "Sources:")
       :: ((ChatInterface.render_source <$> (s :: srcs)) ≫= leaves)).
  - cbn. rewrite !app_nil_r. reflexivity.
  - f_equal. rewrite bind_fmap. reflexivity.
Qed.

Lemma leaves_render_message (m : Message) :
  leaves (ChatInterface.render_message m)
  = LText (content m) :: leaves (ChatInterface.render_sources m).
Proof.
  unfold ChatInterface.render_message.
  cbn [leaves el mbind list_bind app]. rewrite !app_nil_r. reflexivity.
Qed.

Lemma numbers_app (l1 l2 : list leaf) :
  numbers (l1 ++ l2) = numbers l1 ++ numbers l2.
Proof. apply bind_app. Qed.

Lemma numbers_source_leaves (srcs : list Source) :
  numbers (srcs ≫= source_leaves) = (fun s => page s + 1) <$> srcs.
Proof.
  induction srcs as [|s srcs IH]; [reflexivity |].
  rewrite bind_cons, numbers_app, IH. reflexivity.
Qed.

Lemma numbers_render_message (m : Message) :
  numbers (leaves (ChatInterface.render_message m))
  = (fun p => p + 1) <$> cited_pages m.
Proof.
  rewrite leaves_render_message, leaves_render_sources. unfold cited_pages.
  destruct (role m); [reflexivity |].
  destruct (sources m) as [[|s srcs]|]; try reflexivity.
  change (numbers (LText (content m) :: LText (lit "Sources:")
                     :: ((s :: srcs) ≫= source_leaves)))
    with (numbers ((s :: srcs) ≫= source_leaves)).
  rewrite numbers_source_leaves, <- list_fmap_compose. reflexivity.
Qed.

Lemma numbers_render_messages (ms : list Message) :
  numbers ((ChatInterface.render_message <$> ms) ≫= leaves)
  = (fun p => p + 1) <$> (ms ≫= cited_pages).
Proof.
  induction ms as [|m ms IH]; [reflexivity |].
  rewrite fmap_cons, !bind_cons, numbers_app, fmap_app, IH,
    numbers_render_message.
  reflexivity.
Qed.

(** C1, as the code has it: the number shown for a source entry is the
    [page] field of the response plus one, the component taking the field
    as a 0-based page index and showing the 1-based page number; and the
    numbers on the screen of the chat are exactly these, for the sources of
    the assistant messages in their order. *)
Theorem displayed_page_is_page_plus_one :
  (forall s : Source,
      numbers (leaves (ChatInterface.render_source s)) = [page s + 1])
  /\ (forall c : ChatInterface.State,
         numbers (leaves (ChatInterface.render c))
         = (fun p => p + 1) <$> (ChatInterface.messages c ≫= cited_pages)).
Proof.
  split; [reflexivity |].
  intros c. unfold ChatInterface.render.
  rewrite leaves_el, bind_cons, numbers_app.
  rewrite leaves_el, bind_cons, numbers_app.
  match goal with
  | |- (_ ++ ?B) ++ ?C = _ =>
      assert (HC : C = []) by reflexivity;
      assert (HB : B = []) by (destruct (ChatInterface.loading c); reflexivity);
      rewrite HC, HB, !app_nil_r
  end.
  destruct (ChatInterface.messages c) as [|m ms] eqn:Hms; [reflexivity |].
  cbn [length Nat.eqb]. rewrite <- Hms.
  apply numbers_render_messages.
Qed.

(** C1 as stated fails: for an entry whose [page] field is the 1-based
    number 1 of the first page, the interface shows 2. *)
Lemma displayed_page_differs_from_page :
  let s := {| source := lit "sky.pdf"; page := 1;
              snippet := lit "The sky is blue." |} in
  numbers (leaves (ChatInterface.render_source s)) = [2]
  /\ numbers (leaves (ChatInterface.render_source s)) <> [page s].
Proof. split; [reflexivity | discriminate]. Qed.

Lemma leaves_render_messages (ms : list Message) :
  (ChatInterface.render_message <$> ms) ≫= leaves = ms ≫= message_leaves.
Proof.
  induction ms as [|m ms IH]; [reflexivity |].
  rewrite fmap_cons, !bind_cons, IH. f_equal.
  rewrite leaves_render_message, leaves_render_sources.
  unfold message_leaves, shown_sources.
  destruct (role m), (sources m) as [[|s srcs]|]; reflexivity.
Qed.

(** All the chat puts on the screen once it has a message. *)
Lemma leaves_render_chat (c : ChatInterface.State) :
  ChatInterface.messages c <> [] ->
  leaves (ChatInterface.render c)
  = (ChatInterface.messages c ≫= message_leaves)
    ++ (if ChatInterface.loading c then [LText (lit "Thinking...")] else [])
    ++ [LText (lit "Show sources in responses")].
Proof.
  intros Hne. unfold ChatInterface.render.
  rewrite leaves_el, bind_cons. rewrite leaves_el, bind_cons.
  match goal with
  | |- (_ ++ ?B) ++ ?C = _ =>
      assert (HC : C = [LText (lit "Show sources in responses")])
        by reflexivity;
      assert (HB : B = if ChatInterface.loading c
                       then [LText (lit "Thinking...")] else [])
        by (destruct (ChatInterface.loading c); reflexivity);
      rewrite HC, HB, <- app_assoc
  end.
  f_equal.
  destruct (ChatInterface.messages c) as [|m ms] eqn:Hms; [congruence |].
  cbn [length Nat.eqb leaves]. apply leaves_render_messages.
Qed.

(** C6: what the chat interface shows is, message by message in the order
    of the list, the content of the message and then, for an assistant
    message with a non-empty [sources] array, the heading and the entries
    in the order of the array, each with its filename, its page and its
    snippet; so every such message has its block on the screen; a message
    without [sources], or with an empty array, shows its content only. *)
Theorem sources_rendered_in_order (c : ChatInterface.State) :
  ChatInterface.messages c <> [] ->
  leaves (ChatInterface.render c)
  = (ChatInterface.messages c ≫= message_leaves)
    ++ (if ChatInterface.loading c then [LText (lit "Thinking...")] else [])
    ++ [LText (lit "Show sources in responses")]
  /\ (forall m srcs,
         m ∈ ChatInterface.messages c ->
         role m = assistant -> sources m = Some srcs -> srcs <> [] ->
         exists before after,
           leaves (ChatInterface.render c)
           = before
             ++ LText (content m) :: LText (lit "Sources:")
                :: (srcs ≫= source_leaves)
             ++ after)
  /\ (forall m,
         sources m = None \/ sources m = Some [] ->
         message_leaves m = [LText (content m)]
         /\ ChatInterface.render_sources m = VNone)
  /\ ((forall m, m ∈ ChatInterface.messages c ->
                 sources m = None \/ sources m = Some []) ->
      leaves (ChatInterface.render c)
      = ((fun m => LText (content m)) <$> ChatInterface.messages c)
        ++ (if ChatInterface.loading c then [LText (lit "Thinking...")] else [])
        ++ [LText (lit "Show sources in responses")]).
Proof.
  intros Hne. pose proof (leaves_render_chat c Hne) as Hall.
  split; [exact Hall |]. split; [| split].
  - intros m srcs Hin Hrole Hsrc Hsne. rewrite Hall.
    apply list_elem_of_split in Hin. destruct Hin as (l1 & l2 & ->).
    exists (l1 ≫= message_leaves).
    eexists. rewrite bind_app, bind_cons, <- !app_assoc. f_equal.
    unfold message_leaves at 1, shown_sources. rewrite Hrole, Hsrc.
    destruct srcs as [|s srcs]; [congruence |].
    reflexivity.
  - intros m H. unfold message_leaves, shown_sources,
      ChatInterface.render_sources.
    destruct H as [-> | ->]; destruct (role m); split; reflexivity.
  - intros Hno. rewrite Hall. f_equal.
    clear Hall Hne. induction (ChatInterface.messages c) as [|m ms IH];
      [reflexivity |].
    rewrite bind_cons, fmap_cons, IH
      by (intros m' Hm'; apply Hno; right; exact Hm').
    unfold message_leaves, shown_sources.
    destruct (Hno m (list_elem_of_here _ _)) as [-> | ->];
      destruct (role m); reflexivity.
Qed.

Lemma sources_rendered_in_order_witness :
  let c := ChatInterface.setMessages
             [ {| role := user; content := lit "Color?"; sources := None |};
               {| role := assistant; content := lit "Blue.";
                  sources := Some [ {| source := lit "sky.pdf"; page := 0;
                                       snippet := lit "The sky is blue." |};
                                    {| source := lit "sky.pdf"; page := 1;
                                       snippet := lit "Grass is green." |} ] |} ]
             (ChatInterface.init []) in
  leaves (ChatInterface.render c)
  = [LText (lit "Color?"); LText (lit "Blue.");
     LText (lit "Sources:");
     LText (lit "sky.pdf"); LText (lit " (Page "); LNum 1; LText (lit ")");
     LText (lit "The sky is blue.");
     LText (lit "sky.pdf"); LText (lit " (Page "); LNum 2; LText (lit ")");
     LText (lit "Grass is green.");
     LText (lit "Show sources in responses")].
Proof.
  intros c.
  rewrite (proj1 (sources_rendered_in_order c ltac:(discriminate))).
  reflexivity.
Defined.

(** ** Submitting a question *)

Lemma blank_Forall (s : jsstring) :
  blank s = true <-> Forall (fun c => isWhiteSpace c = true) s.
Proof.
  unfold blank. rewrite forallb_forall, Forall_forall.
  split; intros H x Hx; apply H; apply list_elem_of_In; exact Hx.
Qed.

(** The guard [!input.trim()] is the test for a blank input. *)
Lemma truthy_trim (s : jsstring) : truthy (trim s) = negb (blank s).
Proof.
  destruct (blank s) eqn:Hb.
  - apply blank_Forall in Hb. rewrite (trim_whitespace _ Hb). reflexivity.
  - destruct (trim s) eqn:Ht; [| reflexivity].
    apply trim_empty_inv, blank_Forall in Ht. congruence.
Qed.

(** C4: a submission with a non-blank input (and no request in flight)
    sends one request, a POST to the chat endpoint whose body has
    [question] = the input without its leading and trailing whitespace and
    [include_sources] = the state of the switch; the switch starts checked
    and holds what the user last set. *)
Theorem submit_sends_trimmed_question (c : ChatInterface.State) :
  blank (ChatInterface.input c) = false ->
  ChatInterface.loading c = false ->
  requests (ChatInterface.effects (ChatInterface.handleSubmit c))
  = [AxiosPost ChatInterface.chat_url
       (JsonBody {| question := trim (ChatInterface.input c);
                    include_sources := ChatInterface.showSources c |})]
  /\ (exists pre post,
         ChatInterface.input c = pre ++ trim (ChatInterface.input c) ++ post
         /\ Forall (fun ch => isWhiteSpace ch = true) pre
         /\ Forall (fun ch => isWhiteSpace ch = true) post
         /\ (forall ch, head (trim (ChatInterface.input c)) = Some ch ->
                        isWhiteSpace ch = false)
         /\ (forall ch, last (trim (ChatInterface.input c)) = Some ch ->
                        isWhiteSpace ch = false))
  /\ (forall initialMessages,
         ChatInterface.showSources (ChatInterface.init initialMessages) = true)
  /\ (forall v,
         ChatInterface.showSources (ChatInterface.onCheckedChange v c) = v)
  /\ (forall v,
         ChatInterface.showSources (ChatInterface.onInputChange v c)
         = ChatInterface.showSources c).
Proof.
  intros Hb Hl. split; [| split; [apply trim_spec | repeat split]].
  unfold ChatInterface.handleSubmit.
  rewrite truthy_trim, Hb, Hl. reflexivity.
Qed.

Lemma submit_sends_trimmed_question_witness :
  let c := ChatInterface.onInputChange (lit "  What color is the sky? ")
             (ChatInterface.init []) in
  requests (ChatInterface.effects (ChatInterface.handleSubmit c))
  = [AxiosPost (lit "http://localhost:8000/chat/")
       (JsonBody {| question := lit "What color is the sky?";
                    include_sources := true |})].
Proof.
  intros c.
  exact (proj1 (submit_sends_trimmed_question c eq_refl eq_refl)).
Defined.

(** With a blank input, or while loading, the handler returns at once. *)
Lemma handleSubmit_guarded (c : ChatInterface.State) :
  blank (ChatInterface.input c) = true \/ ChatInterface.loading c = true ->
  ChatInterface.handleSubmit c
  = {| ChatInterface.next := c;
       ChatInterface.effects := [PreventDefault];
       ChatInterface.pending := None |}.
Proof.
  intros H. unfold ChatInterface.handleSubmit. rewrite truthy_trim.
  destruct H as [-> | ->]; [reflexivity |].
  rewrite orb_true_r. reflexivity.
Qed.

Lemma handleSubmit_pending (c : ChatInterface.State) (k : ChatInterface.Pending) :
  ChatInterface.pending (ChatInterface.handleSubmit c) = Some k ->
  ChatInterface.loading c = false
  /\ blank (ChatInterface.input c) = false
  /\ ChatInterface.updatedMessages k
     = ChatInterface.messages c
       ++ [{| role := user; content := ChatInterface.input c;
              sources := None |}]
  /\ ChatInterface.loading (ChatInterface.next (ChatInterface.handleSubmit c))
     = true
  /\ requests (ChatInterface.effects (ChatInterface.handleSubmit c))
     = [AxiosPost ChatInterface.chat_url
          (JsonBody {| question := trim (ChatInterface.input c);
                       include_sources := ChatInterface.showSources c |})].
Proof.
  unfold ChatInterface.handleSubmit. rewrite truthy_trim.
  destruct (blank (ChatInterface.input c)), (ChatInterface.loading c);
    simpl; try discriminate.
  intros [= <-]. repeat split.
Qed.

(** ** The page: what the renders and effects preserve *)

(** The part of the page the chat requests depend on. *)
Lemma chat_messages_set_view (a : App.State) :
  ChatInterface.loading (App.chat (App.chat_messages_set a))
  = ChatInterface.loading (App.chat a)
  /\ App.inflight (App.chat_messages_set a) = App.inflight a
  /\ ChatInterface.messages (App.chat (App.chat_messages_set a))
     = ChatInterface.messages (App.chat a)
  /\ Home.messages (App.home (App.chat_messages_set a))
     = ChatInterface.messages (App.chat a).
Proof.
  unfold App.chat_messages_set, ChatInterface.effect_initialMessages.
  cbn [Home.setMessages Home.messages].
  destruct (0 <? length (ChatInterface.messages (App.chat a)))%nat;
    repeat split.
Qed.

Lemma home_messages_set_view (a : App.State) :
  ChatInterface.loading (App.chat (App.home_messages_set a))
  = ChatInterface.loading (App.chat a)
  /\ App.inflight (App.home_messages_set a) = App.inflight a.
Proof.
  unfold App.home_messages_set.
  destruct (0 <? length (Home.messages (App.home a)))%nat; [| split; reflexivity].
  destruct (chat_messages_set_view
              (App.set_chat
                 (ChatInterface.effect_initialMessages
                    (Home.messages (App.home a)) (App.chat a)) a))
    as (Hl & Hi & _).
  rewrite Hl, Hi. unfold ChatInterface.effect_initialMessages.
  destruct (0 <? length (Home.messages (App.home a)))%nat; split; reflexivity.
Qed.

Lemma filter_is_chat_const (r : App.request) (es : list effect) :
  App.is_chat r = false ->
  List.filter App.is_chat ((fun _ => r) <$> es) = [].
Proof.
  intros Hr. induction es as [|e es IH]; [reflexivity |].
  rewrite fmap_cons. simpl. rewrite Hr. exact IH.
Qed.

Lemma issue_view (r : App.request) (es : list effect) (a : App.State) :
  App.is_chat r = false ->
  App.chat (App.issue r es a) = App.chat a
  /\ App.chat_inflight (App.issue r es a) = App.chat_inflight a.
Proof.
  intros Hr. split; [reflexivity |].
  unfold App.chat_inflight, App.issue. cbn [App.inflight App.set_inflight].
  rewrite List.filter_app, (filter_is_chat_const _ _ Hr). apply app_nil_r.
Qed.

Lemma home_refresh_set_view (h' : Home.State) (a : App.State) :
  App.chat (App.home_refresh_set h' a) = App.chat a
  /\ App.chat_inflight (App.home_refresh_set h' a) = App.chat_inflight a.
Proof.
  unfold App.home_refresh_set.
  destruct (Bool.eqb _ _); [split; reflexivity |].
  match goal with
  | |- App.chat (App.issue ?r ?es ?b) = _ /\ _ =>
      destruct (issue_view r es b eq_refl) as [-> ->]
  end.
  split; reflexivity.
Qed.

Lemma docs_callback_view (a : App.State) (cb : DocumentList.callback) :
  chat_view (App.docs_callback a cb) = chat_view a.
Proof.
  unfold chat_view. destruct cb as [|s]; cbn [App.docs_callback].
  - destruct (home_refresh_set_view
                (Home.handleRefreshComplete (App.home a)) a) as [-> ->].
    reflexivity.
  - unfold App.chat_inflight.
    destruct (home_messages_set_view
                (App.set_home (Home.handleSummarize s (App.home a)) a))
      as [-> ->].
    reflexivity.
Qed.

Lemma upload_callback_view (a : App.State) (cb : DocumentUpload.callback) :
  chat_view (App.upload_callback a cb) = chat_view a.
Proof.
  unfold chat_view. destruct cb; cbn [App.upload_callback].
  destruct (home_refresh_set_view
              (Home.handleUploadSuccess (App.home a)) a) as [-> ->].
  reflexivity.
Qed.

Lemma foldl_view {C} (f : App.State -> C -> App.State) (cbs : list C) :
  (forall a cb, chat_view (f a cb) = chat_view a) ->
  forall a, chat_view (foldl f a cbs) = chat_view a.
Proof.
  intros Hf. induction cbs as [|cb cbs IH]; intros a; [reflexivity |].
  simpl. rewrite IH. apply Hf.
Qed.

Lemma run_docs_view (r : App.request) (o : DocumentList.Out) (a : App.State) :
  App.is_chat r = false ->
  chat_view (App.run_docs r o a) = chat_view a.
Proof.
  intros Hr. unfold App.run_docs.
  rewrite (foldl_view _ _ docs_callback_view). unfold chat_view.
  destruct (issue_view r (DocumentList.effects o)
              (App.set_docs (DocumentList.next o) a) Hr) as [-> ->].
  reflexivity.
Qed.

Lemma run_upload_view (o : DocumentUpload.Out) (a : App.State) :
  chat_view (App.run_upload o a) = chat_view a.
Proof.
  unfold App.run_upload.
  rewrite (foldl_view _ _ upload_callback_view). unfold chat_view.
  destruct (issue_view App.RUpload (DocumentUpload.effects o)
              (App.set_upload (DocumentUpload.next o) a) eq_refl) as [-> ->].
  reflexivity.
Qed.

(** Settling the call at position [i] takes it out of the list. *)
Lemma filter_is_chat_delete (l : list App.request) (i : nat) (r : App.request) :
  l !! i = Some r ->
  length (List.filter App.is_chat l)
  = ((if App.is_chat r then 1 else 0)
     + length (List.filter App.is_chat (delete i l)))%nat.
Proof.
  revert i. induction l as [|x l IH]; intros [|i] H; try discriminate.
  - injection H as ->. simpl. destruct (App.is_chat r); reflexivity.
  - simpl in H. simpl. specialize (IH i H).
    destruct (App.is_chat x); simpl; rewrite IH; lia.
Qed.

(** ** The page: one chat request at a time *)

Lemma set_chat_same (a : App.State) : App.set_chat (App.chat a) a = a.
Proof. destruct a; reflexivity. Qed.

Lemma chat_inv_view (a b : App.State) :
  chat_view b = chat_view a -> chat_inv a -> chat_inv b.
Proof. unfold chat_view, chat_inv. intros [= -> ->]. exact id. Qed.

Lemma chat_inv_init : chat_inv App.init.
Proof. reflexivity. Qed.

Lemma chat_inv_delete_other (a : App.State) (i : nat) (r : App.request) :
  App.inflight a !! i = Some r -> App.is_chat r = false ->
  chat_inv a -> chat_inv (App.set_inflight (delete i (App.inflight a)) a).
Proof.
  unfold chat_inv, App.chat_inflight. intros Hi Hr.
  rewrite (filter_is_chat_delete _ _ _ Hi), Hr. exact id.
Qed.

Lemma chat_inv_settled (a : App.State) (i : nat) (k : ChatInterface.Pending)
    (c : ChatInterface.State) :
  App.inflight a !! i = Some (App.RChat k) ->
  ChatInterface.loading c = false ->
  chat_inv a ->
  chat_inv (App.chat_messages_set
              (App.set_chat c (App.set_inflight (delete i (App.inflight a)) a))).
Proof.
  unfold chat_inv, App.chat_inflight. intros Hi Hc.
  rewrite (filter_is_chat_delete _ _ _ Hi). cbn [App.is_chat]. intros Hinv.
  match goal with
  | |- context [App.chat_messages_set ?b] =>
      destruct (chat_messages_set_view b) as (-> & -> & _)
  end.
  cbn [App.chat App.set_chat App.inflight App.set_inflight]. rewrite Hc.
  destruct (ChatInterface.loading (App.chat a)); lia.
Qed.

Lemma chat_inv_step (a a' : App.State) (e : App.event) :
  chat_inv a -> App.dispatch e a = Some a' -> chat_inv a'.
Proof.
  intros Hinv. destruct e as [v | v | | id | files | i r]; cbn [App.dispatch].
  - intros [= <-]. exact Hinv.
  - intros [= <-]. exact Hinv.
  - destruct (ChatInterface.pending (ChatInterface.handleSubmit (App.chat a)))
      as [k|] eqn:Hp.
    + intros [= <-].
      destruct (handleSubmit_pending _ _ Hp) as (Hl & _ & _ & Hl' & Hreq).
      unfold chat_inv, App.chat_inflight in *.
      match goal with
      | |- context [App.chat_messages_set ?b] =>
          destruct (chat_messages_set_view b) as (-> & -> & _)
      end.
      unfold App.issue.
      cbn [App.chat App.set_chat App.inflight App.set_inflight].
      rewrite Hl', Hreq, List.filter_app, length_app, Hinv, Hl. reflexivity.
    + intros [= <-]. revert Hp. unfold ChatInterface.handleSubmit.
      destruct (negb _ || _); [| discriminate].
      intros _. cbn [ChatInterface.next]. rewrite set_chat_same. exact Hinv.
  - destruct (DocumentList.loading (App.docs a)); [discriminate |].
    destruct (DocumentList.documents (App.docs a) !! id); [| discriminate].
    destruct (bool_decide _); [discriminate |].
    intros [= <-]. eapply chat_inv_view; [| exact Hinv].
    apply run_docs_view. reflexivity.
  - intros [= <-]. eapply chat_inv_view; [| exact Hinv].
    apply run_upload_view.
  - destruct (App.inflight a !! i) as [[k | | |]|] eqn:Hi;
      destruct r as [[v|err] | [v|err] | [v|err] | [v|err]];
      try discriminate; intros [= <-];
      try (apply (chat_inv_settled a i k); [exact Hi | reflexivity | exact Hinv]);
      (eapply chat_inv_view;
       [ first [apply run_docs_view; reflexivity | apply run_upload_view]
       | eapply chat_inv_delete_other; [exact Hi | reflexivity | exact Hinv] ]).
Qed.

Lemma chat_inv_reachable (a : App.State) : App.reachable a -> chat_inv a.
Proof.
  induction 1 as [|a e a' _ IH Hstep]; [exact chat_inv_init |].
  exact (chat_inv_step _ _ _ IH Hstep).
Qed.

(** C10: a submission with an empty or whitespace-only input, or while a
    chat request is in flight ([loading]), issues no HTTP request and
    leaves the component, hence the message list, as it was; and in every
    state the page can reach at most one chat request is in flight. *)
Theorem submit_guard_single_flight :
  (forall c : ChatInterface.State,
      blank (ChatInterface.input c) = true \/ ChatInterface.loading c = true ->
      requests (ChatInterface.effects (ChatInterface.handleSubmit c)) = []
      /\ ChatInterface.pending (ChatInterface.handleSubmit c) = None
      /\ ChatInterface.next (ChatInterface.handleSubmit c) = c)
  /\ (forall a : App.State,
         blank (ChatInterface.input (App.chat a)) = true
         \/ ChatInterface.loading (App.chat a) = true ->
         App.dispatch App.Submit a = Some a)
  /\ (forall a : App.State,
         App.reachable a ->
         (length (App.chat_inflight a) <= 1)%nat
         /\ (ChatInterface.loading (App.chat a) = false ->
             App.chat_inflight a = [])).
Proof.
  split; [| split].
  - intros c H. rewrite (handleSubmit_guarded c H). repeat split.
  - intros a H. cbn [App.dispatch].
    rewrite (handleSubmit_guarded _ H). cbn. rewrite set_chat_same. reflexivity.
  - intros a Hr. apply chat_inv_reachable in Hr. unfold chat_inv in Hr.
    split.
    + rewrite Hr. destruct (ChatInterface.loading (App.chat a)); lia.
    + intros Hl. rewrite Hl in Hr. apply nil_length_inv. exact Hr.
Qed.

Lemma run_reachable (es : list App.event) (a a' : App.State) :
  App.reachable a -> App.run es a = Some a' -> App.reachable a'.
Proof.
  revert a. induction es as [|e es IH]; intros a Ha; simpl.
  - intros [= <-]. exact Ha.
  - destruct (App.dispatch e a) as [a1|] eqn:He; [| discriminate].
    apply IH. exact (App.reachable_step _ _ _ Ha He).
Qed.

Lemma submit_guard_single_flight_witness :
  exists a,
    App.run [App.InputChange (lit "What color is the sky?"); App.Submit]
      App.init = Some a
    /\ ChatInterface.loading (App.chat a) = true
    /\ App.dispatch App.Submit a = Some a
    /\ (length (App.chat_inflight a) <= 1)%nat.
Proof.
  eexists. split; [reflexivity |]. split; [reflexivity |]. split.
  - apply (proj1 (proj2 submit_guard_single_flight)). right. reflexivity.
  - apply (proj2 (proj2 submit_guard_single_flight)).
    apply (run_reachable
             [App.InputChange (lit "What color is the sky?"); App.Submit]
             App.init); [apply App.reachable_init | reflexivity].
Defined.

(** ** The page: a failed chat request *)

(** C5: when the chat request of a submission is rejected, the message
    list becomes the list of the submission, then the user's message, then
    one assistant message with the fixed apology, whatever was thrown; the
    loading flag is cleared. *)
Theorem chat_failure_fixed_message
    (c0 : ChatInterface.State) (k : ChatInterface.Pending)
    (a : App.State) (i : nat) (err : JsError) :
  ChatInterface.pending (ChatInterface.handleSubmit c0) = Some k ->
  App.inflight a !! i = Some (App.RChat k) ->
  exists a',
    App.dispatch (App.Settle i (App.ChatReply (App.Rejected err))) a = Some a'
    /\ ChatInterface.messages (App.chat a')
       = ChatInterface.messages c0
         ++ [ {| role := user; content := ChatInterface.input c0;
                 sources := None |};
              {| role := assistant;
                 content := lit "Sorry, there was an error processing your question. Please try again.";
                 sources := None |} ]
    /\ ChatInterface.loading (App.chat a') = false
    /\ Home.messages (App.home a') = ChatInterface.messages (App.chat a').
Proof.
  intros Hp Hi. destruct (handleSubmit_pending _ _ Hp) as (_ & _ & Hk & _).
  eexists. split.
  - cbn [App.dispatch]. rewrite Hi. reflexivity.
  - match goal with
    | |- context [App.chat_messages_set ?b] =>
        destruct (chat_messages_set_view b) as (-> & _ & -> & ->)
    end.
    cbn. rewrite Hk, <- app_assoc. repeat split.
Qed.

Lemma chat_failure_fixed_message_witness :
  let c0 := ChatInterface.onInputChange (lit " sky? ") (ChatInterface.init []) in
  let k := {| ChatInterface.updatedMessages :=
                [ {| role := user; content := lit " sky? ";
                     sources := None |} ] |} in
  let a := default App.init
             (App.run [App.InputChange (lit " sky? "); App.Submit] App.init) in
  let err := {| err_message := lit "Network Error";
                err_stack := lit "at XMLHttpRequest" |} in
  App.inflight a = [App.RFetch; App.RChat k]
  /\ exists a',
      App.dispatch (App.Settle 1 (App.ChatReply (App.Rejected err))) a = Some a'
      /\ ChatInterface.messages (App.chat a')
         = [ {| role := user; content := lit " sky? "; sources := None |};
             {| role := assistant;
                content := lit "Sorry, there was an error processing your question. Please try again.";
                sources := None |} ]
      /\ ChatInterface.loading (App.chat a') = false
      /\ Home.messages (App.home a') = ChatInterface.messages (App.chat a').
Proof.
  intros c0 k a err. split; [reflexivity |].
  apply (chat_failure_fixed_message c0 k a 1 err); reflexivity.
Defined.

(** ** The page: a summary arrives *)

(** C3: when a summarize request resolves, the message list of the chat
    (and Home's copy of it) becomes exactly two messages, the fixed user
    message and an assistant message holding the summary, whatever the
    chat showed before. *)
Theorem summarize_replaces_messages
    (a : App.State) (i : nat) (r : DocumentList.Response) :
  App.inflight a !! i = Some App.RSummarize ->
  exists a',
    App.dispatch (App.Settle i (App.SummarizeReply (App.Resolved r))) a = Some a'
    /\ ChatInterface.messages (App.chat a')
       = [ {| role := user; content := lit "Please summarize this document.";
              sources := None |};
           {| role := assistant; content := DocumentList.resp_summary r;
              sources := None |} ]
    /\ Home.messages (App.home a') = ChatInterface.messages (App.chat a').
Proof.
  intros Hi. eexists. split.
  - cbn [App.dispatch]. rewrite Hi. reflexivity.
  - split; reflexivity.
Qed.

Lemma summarize_replaces_messages_witness :
  let a :=
    default App.init
      (App.run
         [ App.Settle 0
             (App.FetchReply
                (App.Resolved
                   {[ lit "doc-1" := {| filename := lit "sky.pdf";
                                        num_pages := 2 |} ]}));
           App.InputChange (lit "Hello");
           App.Submit;
           App.Settle 0
             (App.ChatReply
                (App.Resolved {| ChatInterface.answer := lit "Hi";
                                 ChatInterface.resp_sources := None |}));
           App.ClickSummarize (lit "doc-1") ]
         App.init) in
  ChatInterface.messages (App.chat a)
  = [ {| role := user; content := lit "Hello"; sources := None |};
      {| role := assistant; content := lit "Hi"; sources := None |} ]
  /\ exists a',
      App.dispatch
        (App.Settle 0 (App.SummarizeReply
                         (App.Resolved
                            {| DocumentList.resp_summary := lit "Two pages." |})))
        a = Some a'
      /\ ChatInterface.messages (App.chat a')
         = [ {| role := user; content := lit "Please summarize this document.";
                sources := None |};
             {| role := assistant; content := lit "Two pages.";
                sources := None |} ]
      /\ Home.messages (App.home a') = ChatInterface.messages (App.chat a').
Proof.
  intros a. split; [vm_compute; reflexivity |].
  apply (summarize_replaces_messages a 0
           {| DocumentList.resp_summary := lit "Two pages." |}).
  vm_compute. reflexivity.
Defined.

(** ** Upload *)

Lemma upload_settled (a : App.State) (i : nat) (r : DocumentUpload.Response) :
  App.inflight a !! i = Some App.RUpload ->
  exists a',
    App.dispatch (App.Settle i (App.UploadReply (App.Resolved r))) a = Some a'
    /\ App.upload a'
       = DocumentUpload.next (DocumentUpload.onDrop_resolved r (App.upload a)).
Proof.
  intros Hi. eexists. split.
  - cbn [App.dispatch]. rewrite Hi. reflexivity.
  - unfold App.run_upload. cbn. unfold App.home_refresh_set.
    destruct (Bool.eqb _ _); reflexivity.
Qed.

(** C7: the body of a resolved upload has the two fields [filename] and
    [num_chunks]; when the upload request resolves, the status of the
    upload card is the success status whose text is built from exactly
    these two values, and that text is what the card shows under the drop
    zone. *)
Theorem upload_success_status
    (a : App.State) (i : nat) (r : DocumentUpload.Response)
    (isDragActive : bool) :
  App.inflight a !! i = Some App.RUpload ->
  exists a',
    App.dispatch (App.Settle i (App.UploadReply (App.Resolved r))) a = Some a'
    /\ DocumentUpload.uploadStatus (App.upload a')
       = Some {| DocumentUpload.success := true;
                 DocumentUpload.message :=
                   lit "Successfully processed "
                   ++ DocumentUpload.resp_filename r
                   ++ lit " with "
                   ++ Number_toString (DocumentUpload.resp_num_chunks r)
                   ++ lit " text chunks" |}
    /\ DocumentUpload.uploading (App.upload a') = false
    /\ leaves (DocumentUpload.render isDragActive (App.upload a'))
       = [ LText (if isDragActive then lit "Drop the PDF here..."
                  else lit "Drag & drop a PDF, or click to select");
           LText (lit "Only PDF files are supported");
           LText (lit "Successfully processed "
                  ++ DocumentUpload.resp_filename r
                  ++ lit " with "
                  ++ Number_toString (DocumentUpload.resp_num_chunks r)
                  ++ lit " text chunks") ].
Proof.
  intros Hi. destruct (upload_settled a i r Hi) as (a' & Hd & Hu).
  exists a'. rewrite Hu. split; [exact Hd |].
  repeat split. destruct isDragActive; reflexivity.
Qed.

Lemma upload_success_status_witness :
  let pdf := {| file_name := lit "sky.pdf"; file_type := lit "application/pdf";
                file_bytes := [37; 80; 68; 70]%N |} in
  let a := default App.init (App.run [App.Drop [pdf]] App.init) in
  let r := {| DocumentUpload.resp_filename := lit "sky.pdf";
              DocumentUpload.resp_num_chunks := 12 |} in
  App.inflight a = [App.RFetch; App.RUpload]
  /\ exists a',
      App.dispatch (App.Settle 1 (App.UploadReply (App.Resolved r))) a = Some a'
      /\ DocumentUpload.uploadStatus (App.upload a')
         = Some {| DocumentUpload.success := true;
                   DocumentUpload.message :=
                     lit "Successfully processed sky.pdf with 12 text chunks" |}
      /\ DocumentUpload.uploading (App.upload a') = false
      /\ leaves (DocumentUpload.render false (App.upload a'))
         = [ LText (lit "Drag & drop a PDF, or click to select");
             LText (lit "Only PDF files are supported");
             LText (lit "Successfully processed sky.pdf with 12 text chunks") ].
Proof.
  intros pdf a r. split; [reflexivity |].
  apply (upload_success_status a 1 r false). reflexivity.
Defined.

(** ** The document list *)

Lemma cards_of_document (d : DocumentList.State) (e : jsstring * Document) :
  elements_by_tag "Card" (DocumentList.render_document d e)
  = [DocumentList.render_document d e].
Proof. destruct e as [id doc]. reflexivity. Qed.

Lemma cards_of_documents (d : DocumentList.State) (l : list (jsstring * Document)) :
  (DocumentList.render_document d <$> l) ≫= elements_by_tag "Card"
  = DocumentList.render_document d <$> l.
Proof.
  induction l as [|e l IH]; [reflexivity |].
  rewrite fmap_cons, bind_cons, IH, cards_of_document. reflexivity.
Qed.

Lemma cards_of_paragraphs (l : list jsstring) :
  ((fun line => VElem "p" [] [VText line]) <$> l) ≫= elements_by_tag "Card" = [].
Proof.
  induction l as [|x l IH]; [reflexivity |].
  rewrite fmap_cons, bind_cons, IH. reflexivity.
Qed.

Lemma cards_of_dialog (d : DocumentList.State) :
  elements_by_tag "Card" (DocumentList.render_dialog d) = [].
Proof.
  unfold DocumentList.render_dialog.
  destruct (DocumentList.summary d) as [s|]; [| reflexivity].
  destruct (truthy s); [| reflexivity].
  cbn. rewrite cards_of_paragraphs. reflexivity.
Qed.

Lemma cards_of_list (d : DocumentList.State) :
  DocumentList.loading d = false ->
  elements_by_tag "Card" (DocumentList.render d)
  = DocumentList.render_document d <$> map_to_list (DocumentList.documents d).
Proof.
  intros Hl. unfold DocumentList.render. rewrite Hl.
  destruct (DocumentList.documentCount d =? 0)%nat eqn:Hc.
  - apply Nat.eqb_eq in Hc. unfold DocumentList.documentCount in Hc.
    apply map_size_empty_iff in Hc. rewrite Hc, map_to_list_empty.
    reflexivity.
  - transitivity
      (((DocumentList.render_document d
           <$> map_to_list (DocumentList.documents d))
          ≫= elements_by_tag "Card")
       ++ elements_by_tag "Card" (DocumentList.render_dialog d)).
    + cbn. rewrite !app_nil_r. reflexivity.
    + rewrite cards_of_dialog, app_nil_r. apply cards_of_documents.
Qed.

(** C8: the documents are a mapping from id to [{filename, num_pages}];
    once a fetch of the list has resolved, the component shows one card
    for each entry of the mapping it received, an entry being one id with
    its document, and a card shows the filename and the page count. *)
Theorem document_list_one_card_per_id
    (data : gmap jsstring Document) (d : DocumentList.State) :
  let d' := DocumentList.next (DocumentList.fetchDocuments_resolved data d) in
  DocumentList.documents d' = data
  /\ elements_by_tag "Card" (DocumentList.render d')
     = DocumentList.render_document d' <$> map_to_list data
  /\ length (elements_by_tag "Card" (DocumentList.render d')) = size data
  /\ NoDup (map_to_list data).*1
  /\ (forall id doc, (id, doc) ∈ map_to_list data <-> data !! id = Some doc)
  /\ (forall id doc,
         exists label,
           leaves (DocumentList.render_document d' (id, doc))
           = [LText (filename doc); LNum (num_pages doc);
              LText (lit " pages"); LText label]).
Proof.
  intros d'.
  assert (Hcards : elements_by_tag "Card" (DocumentList.render d')
                   = DocumentList.render_document d' <$> map_to_list data)
    by (apply (cards_of_list d'); reflexivity).
  split; [reflexivity |]. split; [exact Hcards |]. split; [| split; [| split]].
  - rewrite Hcards, length_fmap. apply length_map_to_list.
  - apply NoDup_fst_map_to_list.
  - intros id doc. apply elem_of_map_to_list.
  - intros id doc. cbn [DocumentList.render_document].
    destruct (bool_decide _); eexists; reflexivity.
Qed.

Example document_list_example :
  let d := DocumentList.next
             (DocumentList.fetchDocuments_resolved
                {[ lit "doc-1" := {| filename := lit "sky.pdf"; num_pages := 2 |} ]}
                DocumentList.init) in
  leaves (DocumentList.render d)
  = [LText (lit "Uploaded Documents ("); LNum 1; LText (lit ")");
     LText (lit "sky.pdf"); LNum 2; LText (lit " pages"); LText (lit "Summarize");
     LText (lit "Document Summary"); LText (lit "Summary of "); LText []].
Proof. vm_compute. reflexivity. Qed.

(** ** What reaches the upload endpoint *)

Lemma fileAccepted_options (f : File) :
  Dropzone.fileAccepted DocumentUpload.options f = passes_drop_zone f.
Proof.
  unfold Dropzone.fileAccepted, passes_drop_zone, presented_as_pdf.
  f_equal.
  change (Dropzone.accepts f (Dropzone.acceptAttr DocumentUpload.options))
    with (bool_decide (Dropzone.toLowerCase (file_type f)
                       = lit "application/pdf")
          || (Dropzone.endsWith (Dropzone.toLowerCase (file_name f))
                (lit ".pdf") || false)).
  rewrite orb_false_r. reflexivity.
Qed.

(** What a drop does, by the number of files the drop zone lets
    through. *)
Lemma drop_effects (files : list File) (u : DocumentUpload.State) :
  DocumentUpload.effects (DocumentUpload.drop files u)
  = match List.filter passes_drop_zone files with
    | [f] => [AxiosPost DocumentUpload.upload_url (FormData (lit "file") f)]
    | _ => []
    end.
Proof.
  unfold DocumentUpload.drop, Dropzone.acceptedFiles.
  rewrite (filter_ext _ _ fileAccepted_options).
  cbn [DocumentUpload.options Dropzone.maxFiles].
  destruct (List.filter passes_drop_zone files) as [|f [|f' ok]]; reflexivity.
Qed.

(** C9, as the code has it: a drop of any files issues at most one
    request, an upload of one of the files of the drop that the drop zone
    lets through, that is a file whose MIME type is [application/pdf] or
    [application/x-moz-file] or whose name ends in [.pdf]; when more than
    one such file is dropped, none is uploaded; the bytes of a file are
    not looked at. *)
Theorem drop_uploads_one_accepted_file
    (files : list File) (u : DocumentUpload.State) :
  let es := DocumentUpload.effects (DocumentUpload.drop files u) in
  (es = []
   \/ exists f, es = [AxiosPost DocumentUpload.upload_url (FormData (lit "file") f)]
                /\ f ∈ files
                /\ passes_drop_zone f = true
                /\ List.filter passes_drop_zone files = [f])
  /\ (length (requests es) <= 1)%nat
  /\ (forall url field f,
         AxiosPost url (FormData field f) ∈ es ->
         Dropzone.toLowerCase (file_type f) = lit "application/pdf"
         \/ file_type f = lit "application/x-moz-file"
         \/ lit ".pdf" `suffix_of` Dropzone.toLowerCase (file_name f)).
Proof.
  intros es.
  assert (H : es = []
              \/ exists f, es = [AxiosPost DocumentUpload.upload_url
                                   (FormData (lit "file") f)]
                           /\ f ∈ files
                           /\ passes_drop_zone f = true
                           /\ List.filter passes_drop_zone files = [f]).
  { subst es. rewrite drop_effects.
    destruct (List.filter passes_drop_zone files) as [|f [|f' ok]] eqn:Hok;
      [left; reflexivity | | left; reflexivity].
    right. exists f.
    assert (Hin : In f (List.filter passes_drop_zone files))
      by (rewrite Hok; left; reflexivity).
    apply filter_In in Hin. destruct Hin as [Hin Hpdf].
    repeat split; [apply list_elem_of_In; exact Hin | exact Hpdf]. }
  split; [exact H |].
  destruct H as [-> | (f & -> & _ & Hpdf & _)].
  - split; [simpl; lia |]. intros url field f Hin. inversion Hin.
  - split; [simpl; lia |]. intros url field f' Hin.
    apply list_elem_of_singleton in Hin. injection Hin as _ _ ->.
    unfold passes_drop_zone, presented_as_pdf, Dropzone.endsWith in Hpdf.
    apply orb_prop in Hpdf. destruct Hpdf as [Hx | Hpdf].
    + right. left. exact (bool_decide_eq_true_1 _ Hx).
    + apply orb_prop in Hpdf. destruct Hpdf as [Ht | Hn].
      * left. exact (bool_decide_eq_true_1 _ Ht).
      * right. right. exact (bool_decide_eq_true_1 _ Hn).
Qed.

Lemma drop_uploads_one_accepted_file_witness :
  let pdf := {| file_name := lit "Sky.PDF"; file_type := lit "application/pdf";
                file_bytes := [37; 80; 68; 70]%N |} in
  let txt := {| file_name := lit "notes.txt"; file_type := lit "text/plain";
                file_bytes := [104; 105]%N |} in
  DocumentUpload.effects (DocumentUpload.drop [txt; pdf] DocumentUpload.init)
  = [AxiosPost (lit "http://localhost:8000/documents/upload")
       (FormData (lit "file") pdf)]
  /\ (Dropzone.toLowerCase (file_type pdf) = lit "application/pdf"
      \/ file_type pdf = lit "application/x-moz-file"
      \/ lit ".pdf" `suffix_of` Dropzone.toLowerCase (file_name pdf))
  /\ DocumentUpload.effects (DocumentUpload.drop [txt] DocumentUpload.init) = []
  /\ DocumentUpload.effects (DocumentUpload.drop [pdf; pdf] DocumentUpload.init)
     = [].
Proof.
  intros pdf txt. split; [reflexivity |]. split; [| split; reflexivity].
  apply (proj2 (proj2 (drop_uploads_one_accepted_file [txt; pdf]
                         DocumentUpload.init))
           (lit "http://localhost:8000/documents/upload") (lit "file") pdf).
  apply list_elem_of_In. left. reflexivity.
Defined.

(** C9 as stated fails: a text file that the browser reports with the
    type [application/x-moz-file], and one that is merely named like a
    PDF, are let through and posted to the upload endpoint, though the
    MIME type of neither is [application/pdf]. *)
Lemma drop_uploads_non_pdf :
  let moz := {| file_name := lit "notes.txt";
                file_type := lit "application/x-moz-file";
                file_bytes := [104; 105]%N |} in
  let named := {| file_name := lit "notes.pdf"; file_type := lit "text/plain";
                  file_bytes := [104; 105]%N |} in
  DocumentUpload.effects (DocumentUpload.drop [moz] DocumentUpload.init)
  = [AxiosPost DocumentUpload.upload_url (FormData (lit "file") moz)]
  /\ presented_as_pdf moz = false
  /\ DocumentUpload.effects (DocumentUpload.drop [named] DocumentUpload.init)
     = [AxiosPost DocumentUpload.upload_url (FormData (lit "file") named)]
  /\ file_type named <> lit "application/pdf".
Proof. repeat split. discriminate. Qed.

(** ** Asking with nothing ingested *)

Section Ask.
Context {vector : Type}
        (embed : jsstring -> vector)
        (search : RagService.DocumentStore vector -> vector -> nat
                  -> list (RagService.Entry vector))
        (complete : jsstring -> list (RagService.Entry vector) -> jsstring)
        (no_documents_answer : jsstring).

Local Abbreviation ask := (RagService.ask vector embed search complete
                         no_documents_answer).

(** C2: on a corpus without ingested documents, [ask] gives the fixed
    answer, whatever the question, and the Generator has received no
    call. *)
Theorem ask_empty_corpus
    (s : RagService.DocumentStore vector) (q : jsstring)
    (include_sources : bool) (g : RagService.Generator) :
  RagService.store_documents s = ∅ ->
  ChatInterface.answer (ask s q include_sources g).1 = no_documents_answer
  /\ RagService.calls (ask s q include_sources g).2 = RagService.calls g.
Proof.
  intros Hs. unfold RagService.ask, RagService.corpus_empty.
  rewrite bool_decide_eq_true_2 by exact Hs. split; reflexivity.
Qed.

(** With documents in the corpus the Generator is called once. *)
Lemma ask_calls_generator
    (s : RagService.DocumentStore vector) (q : jsstring)
    (include_sources : bool) (g : RagService.Generator) :
  RagService.store_documents s <> ∅ ->
  RagService.calls (ask s q include_sources g).2 = S (RagService.calls g).
Proof.
  intros Hs. unfold RagService.ask, RagService.corpus_empty.
  rewrite bool_decide_eq_false_2 by exact Hs. reflexivity.
Qed.
End Ask.

Lemma ask_empty_corpus_witness :
  let ask :=
    RagService.ask unit (fun _ => tt) (fun _ _ _ => []) (fun q _ => q)
      (lit "No documents are available.") in
  let s := {| RagService.store_documents := ∅; RagService.store_index := [] |} in
  let g := {| RagService.calls := 0 |} in
  ChatInterface.answer (ask s (lit "What color is the sky?") true g).1
  = lit "No documents are available."
  /\ RagService.calls (ask s (lit "What color is the sky?") true g).2 = 0%nat.
Proof.
  intros ask s g.
  apply (ask_empty_corpus (fun _ => tt) (fun _ _ _ => []) (fun q _ => q)
           (lit "No documents are available.") s
           (lit "What color is the sky?") true g).
  reflexivity.
Defined.

(** A citation built the way the service surfaces pages (1-based) is
    shown by the chat one page further: the two conversions add up. *)
Remark citation_shown_shifted {vector : Type}
    (s : RagService.DocumentStore vector) (e : RagService.Entry vector) :
  numbers (leaves (ChatInterface.render_source (RagService.citation vector s e)))
  = [RagService.page_number e + 2].
Proof.
  cbn. f_equal. lia.
Qed.

(* ===================================================================== *)
(** * Further properties of the components *)
(* ===================================================================== *)

(** ** The chat: a question and its answer *)

(** After the [messages] cell of the chat was set, only Home's copy
    changes: the effect on [[initialMessages]] writes back what is
    there. *)
Lemma chat_messages_set_eq (a : App.State) :
  App.chat_messages_set a
  = App.set_home
      (Home.setMessages (ChatInterface.messages (App.chat a)) (App.home a)) a.
Proof.
  unfold App.chat_messages_set, ChatInterface.effect_initialMessages.
  destruct a as [h c d u fl]. destruct c as [ms inp ld sh].
  cbn [App.chat App.home App.set_home App.set_chat Home.setMessages
       Home.messages ChatInterface.messages ChatInterface.setMessages
       ChatInterface.input ChatInterface.loading ChatInterface.showSources].
  destruct (0 <? length ms)%nat; reflexivity.
Qed.

(** X1. A submission that goes through shows the question as typed, empties
    the input, raises the loading flag and puts one chat request in
    flight, which carries the list now shown; Home's copy follows. *)
Theorem submit_shows_question (a : App.State) :
  blank (ChatInterface.input (App.chat a)) = false ->
  ChatInterface.loading (App.chat a) = false ->
  exists a' k,
    App.dispatch App.Submit a = Some a'
    /\ ChatInterface.messages (App.chat a')
       = ChatInterface.messages (App.chat a)
         ++ [ {| role := user; content := ChatInterface.input (App.chat a);
                 sources := None |} ]
    /\ ChatInterface.input (App.chat a') = []
    /\ ChatInterface.loading (App.chat a') = true
    /\ ChatInterface.showSources (App.chat a')
       = ChatInterface.showSources (App.chat a)
    /\ Home.messages (App.home a') = ChatInterface.messages (App.chat a')
    /\ App.inflight a' = App.inflight a ++ [App.RChat k]
    /\ ChatInterface.updatedMessages k = ChatInterface.messages (App.chat a').
Proof.
  intros Hb Hl. cbn [App.dispatch]. unfold ChatInterface.handleSubmit.
  rewrite truthy_trim, Hb, Hl. cbn [negb orb ChatInterface.pending].
  eexists _, _. split; [reflexivity |].
  rewrite chat_messages_set_eq. repeat split.
Qed.

Lemma submit_shows_question_witness :
  let a := App.set_chat
             (ChatInterface.onInputChange (lit " sky? ") (ChatInterface.init []))
             App.init in
  exists a' k,
    App.dispatch App.Submit a = Some a'
    /\ ChatInterface.messages (App.chat a')
       = [ {| role := user; content := lit " sky? "; sources := None |} ]
    /\ ChatInterface.input (App.chat a') = []
    /\ ChatInterface.loading (App.chat a') = true
    /\ ChatInterface.showSources (App.chat a') = true
    /\ Home.messages (App.home a') = ChatInterface.messages (App.chat a')
    /\ App.inflight a' = [App.RFetch; App.RChat k]
    /\ ChatInterface.updatedMessages k = ChatInterface.messages (App.chat a').
Proof.
  intros a. apply (submit_shows_question a); reflexivity.
Defined.

(** X2. When the chat request of a submission resolves, the list becomes the
    list of the submission, the question, and one assistant message with
    the answer and the sources of the response, whatever the list shows
    at that moment; loading is cleared, the input and the switch are left
    alone, and the request is out of the calls in flight. *)
Theorem chat_success_appends_answer
    (c0 : ChatInterface.State) (k : ChatInterface.Pending)
    (a : App.State) (i : nat) (r : ChatInterface.Response) :
  ChatInterface.pending (ChatInterface.handleSubmit c0) = Some k ->
  App.inflight a !! i = Some (App.RChat k) ->
  exists a',
    App.dispatch (App.Settle i (App.ChatReply (App.Resolved r))) a = Some a'
    /\ ChatInterface.messages (App.chat a')
       = ChatInterface.messages c0
         ++ [ {| role := user; content := ChatInterface.input c0;
                 sources := None |};
              {| role := assistant; content := ChatInterface.answer r;
                 sources := ChatInterface.resp_sources r |} ]
    /\ ChatInterface.loading (App.chat a') = false
    /\ ChatInterface.input (App.chat a') = ChatInterface.input (App.chat a)
    /\ ChatInterface.showSources (App.chat a')
       = ChatInterface.showSources (App.chat a)
    /\ Home.messages (App.home a') = ChatInterface.messages (App.chat a')
    /\ App.inflight a' = delete i (App.inflight a).
Proof.
  intros Hp Hi. destruct (handleSubmit_pending _ _ Hp) as (_ & _ & Hk & _).
  eexists. split.
  - cbn [App.dispatch]. rewrite Hi. reflexivity.
  - rewrite chat_messages_set_eq. cbn. rewrite Hk, <- app_assoc.
    repeat split.
Qed.

Lemma chat_success_appends_answer_witness :
  let c0 := ChatInterface.onInputChange (lit " sky? ") (ChatInterface.init []) in
  let k := {| ChatInterface.updatedMessages :=
                [ {| role := user; content := lit " sky? ";
                     sources := None |} ] |} in
  let a := default App.init
             (App.run [App.InputChange (lit " sky? "); App.Submit;
                       App.InputChange (lit "next")] App.init) in
  let r := {| ChatInterface.answer := lit "Blue.";
              ChatInterface.resp_sources :=
                Some [ {| source := lit "sky.pdf"; page := 0;
                          snippet := lit "The sky is blue." |} ] |} in
  exists a',
    App.dispatch (App.Settle 1 (App.ChatReply (App.Resolved r))) a = Some a'
    /\ ChatInterface.messages (App.chat a')
       = [ {| role := user; content := lit " sky? "; sources := None |};
           {| role := assistant; content := lit "Blue.";
              sources := Some [ {| source := lit "sky.pdf"; page := 0;
                                   snippet := lit "The sky is blue." |} ] |} ]
    /\ ChatInterface.loading (App.chat a') = false
    /\ ChatInterface.input (App.chat a') = lit "next"
    /\ ChatInterface.showSources (App.chat a') = true
    /\ Home.messages (App.home a') = ChatInterface.messages (App.chat a')
    /\ App.inflight a' = [App.RFetch].
Proof.
  intros c0 k a r.
  apply (chat_success_appends_answer c0 k a 1 r); reflexivity.
Defined.

(** ** The chat: the form follows the handler *)

Section NoSuchTag.
Variable t : string.
Hypothesis Hdiv : String.eqb "div" t = false.
Hypothesis Hp : String.eqb "p" t = false.
Hypothesis Hcard : String.eqb "Card" t = false.
Hypothesis Hcontent : String.eqb "CardContent" t = false.
Hypothesis Hmd : String.eqb "ReactMarkdown" t = false.
Hypothesis Hspan : String.eqb "span" t = false.

Ltac skip_tags :=
  repeat (cbn [elements_by_tag mbind list_bind app el];
          rewrite ?Hdiv, ?Hp, ?Hcard, ?Hcontent, ?Hmd, ?Hspan).

Lemma no_tag_in_sources (srcs : list Source) :
  (ChatInterface.render_source <$> srcs) ≫= elements_by_tag t = [].
Proof.
  induction srcs as [|s srcs IH]; [reflexivity |].
  rewrite fmap_cons, bind_cons, IH. unfold ChatInterface.render_source.
  skip_tags. reflexivity.
Qed.

Lemma no_tag_in_message (m : Message) :
  elements_by_tag t (ChatInterface.render_message m) = [].
Proof.
  unfold ChatInterface.render_message, ChatInterface.render_sources.
  destruct (role m), (sources m) as [[|s srcs]|]; skip_tags; try reflexivity.
  cbn [length Nat.ltb Nat.leb]. skip_tags.
  change (elements_by_tag t (ChatInterface.render_source s)
          ++ list_bind _ _ (elements_by_tag t)
               (ChatInterface.render_source <$> srcs))
    with ((ChatInterface.render_source <$> (s :: srcs)) ≫= elements_by_tag t).
  rewrite no_tag_in_sources. reflexivity.
Qed.

Lemma no_tag_in_messages (ms : list Message) :
  (ChatInterface.render_message <$> ms) ≫= elements_by_tag t = [].
Proof.
  induction ms as [|m ms IH]; [reflexivity |].
  rewrite fmap_cons, bind_cons, IH, no_tag_in_message. reflexivity.
Qed.

(** Above the form, the chat has no element with the tag. *)
Lemma no_tag_above_form (c : ChatInterface.State) :
  elements_by_tag t
    (if (length (ChatInterface.messages c) =? 0)%nat
     then ChatInterface.render_empty
     else VFrag (ChatInterface.render_message <$> ChatInterface.messages c))
  = []
  /\ elements_by_tag t
       (if ChatInterface.loading c then ChatInterface.render_loading
        else VNone) = [].
Proof.
  split.
  - destruct (length (ChatInterface.messages c) =? 0)%nat.
    + unfold ChatInterface.render_empty. skip_tags. reflexivity.
    + cbn [elements_by_tag]. apply no_tag_in_messages.
  - destruct (ChatInterface.loading c); [| reflexivity].
    unfold ChatInterface.render_loading, ChatInterface.dot.
    skip_tags. reflexivity.
Qed.
End NoSuchTag.

(** X4. The submit button is disabled exactly in the states in which
    [handleSubmit] returns before its request, and the input field is
    disabled exactly while loading; the chat has no other button or
    input. *)
Theorem submit_button_follows_guard (c : ChatInterface.State) :
  attr_of "disabled" <$> elements_by_tag "Button" (ChatInterface.render c)
  = [Some (ABool (negb (started (ChatInterface.pending
                                  (ChatInterface.handleSubmit c)))))]
  /\ attr_of "disabled" <$> elements_by_tag "Input" (ChatInterface.render c)
     = [Some (ABool (ChatInterface.loading c))]
  /\ attr_of "value" <$> elements_by_tag "Input" (ChatInterface.render c)
     = [Some (AText (ChatInterface.input c))].
Proof.
  destruct (no_tag_above_form "Button" eq_refl eq_refl eq_refl eq_refl eq_refl
              eq_refl c) as [Hb1 Hb2].
  destruct (no_tag_above_form "Input" eq_refl eq_refl eq_refl eq_refl eq_refl
              eq_refl c) as [Hi1 Hi2].
  unfold ChatInterface.render.
  cbn [elements_by_tag el mbind list_bind app String.eqb Ascii.eqb Bool.eqb].
  rewrite Hb1, Hb2, Hi1, Hi2. cbn.
  unfold ChatInterface.handleSubmit.
  destruct (truthy (trim (ChatInterface.input c))),
    (ChatInterface.loading c); repeat split.
Qed.

(** ** The page: what holds in every state it can reach *)


(** A guarded submission leaves the component as it was. *)
Lemma handleSubmit_not_started (c : ChatInterface.State) :
  ChatInterface.pending (ChatInterface.handleSubmit c) = None ->
  ChatInterface.next (ChatInterface.handleSubmit c) = c.
Proof.
  unfold ChatInterface.handleSubmit.
  destruct (negb _ || _); [reflexivity | discriminate].
Qed.

(** Unfolds one step of the page down to the cells. *)
Ltac page_cbn :=
  cbn [App.home App.chat App.docs App.upload App.inflight
       App.set_home App.set_chat App.set_docs App.set_upload App.set_inflight
       Home.messages Home.refreshDocuments Home.setMessages
       Home.setRefreshDocuments Home.handleUploadSuccess
       Home.handleRefreshComplete Home.handleSummarize
       ChatInterface.messages ChatInterface.input ChatInterface.loading
       ChatInterface.showSources ChatInterface.setMessages
       ChatInterface.setInput ChatInterface.setLoading
       ChatInterface.setShowSources ChatInterface.handleSubmit_resolved
       ChatInterface.handleSubmit_rejected ChatInterface.onInputChange
       ChatInterface.onCheckedChange fst snd
       DocumentList.documents DocumentList.loading DocumentList.summarizing
       DocumentList.summary DocumentList.summaryDialogOpen
       DocumentList.currentFile DocumentList.setDocuments
       DocumentList.setLoading DocumentList.setSummarizing
       DocumentList.setSummary DocumentList.setSummaryDialogOpen
       DocumentList.setCurrentFile DocumentList.next DocumentList.effects
       DocumentList.callbacks DocumentList.fetchDocuments
       DocumentList.fetchDocuments_resolved
       DocumentList.fetchDocuments_rejected DocumentList.effect_refresh
       DocumentList.handleSummarize DocumentList.handleSummarize_resolved
       DocumentList.handleSummarize_rejected
       DocumentUpload.uploading DocumentUpload.uploadStatus
       DocumentUpload.setUploading DocumentUpload.setUploadStatus
       DocumentUpload.next DocumentUpload.effects DocumentUpload.callbacks
       DocumentUpload.onDrop_resolved DocumentUpload.onDrop_rejected
       foldl requests List.filter is_request fmap list_fmap app
       length Nat.ltb Nat.leb] in *.

Ltac page_step :=
  unfold App.run_docs, App.run_upload, App.issue, App.docs_callback,
    App.upload_callback, DocumentUpload.drop, DocumentUpload.onDrop;
  repeat match goal with
         | |- context [match Dropzone.acceptedFiles ?o ?fs with _ => _ end] =>
             destruct (Dropzone.acceptedFiles o fs) eqn:?
         end;
  page_cbn;
  unfold App.docs_callback, App.upload_callback, App.home_refresh_set,
    App.home_messages_set;
  page_cbn;
  repeat match goal with
         | |- context [Bool.eqb ?x ?y] => destruct x eqn:?; cbn [Bool.eqb]
         end;
  unfold App.issue; page_cbn;
  rewrite ?chat_messages_set_eq; page_cbn; rewrite ?app_nil_r.






Lemma paired_app (ms l : list Message) :
  paired ms = true -> paired (ms ++ l) = paired l.
Proof.
  enough (H : (paired ms = true -> paired (ms ++ l) = paired l)
              /\ (forall q, paired (q :: ms) = true ->
                            paired (q :: ms ++ l) = paired l))
    by exact (proj1 H).
  induction ms as [|r ms [IH1 IH2]].
  - split; [reflexivity | discriminate].
  - split.
    + exact (IH2 r).
    + intros q. cbn [paired app].
      intros H. apply andb_prop in H. destruct H as [Hr H].
      rewrite Hr. apply IH1. exact H.
Qed.

(** A call that is not a chat request joins or leaves the list. *)
Ltac chat_request_was_there H :=
  repeat (apply elem_of_app in H; destruct H as [H | H]);
  try (apply list_elem_of_singleton in H; discriminate);
  try apply list_elem_of_delete_inv in H;
  try assumption.

Lemma conversation_inv_step (a a' : App.State) (e : App.event) :
  conversation_inv a -> App.dispatch e a = Some a' -> conversation_inv a'.
Proof.
  unfold conversation_inv. intros (Hk & Hidle).
  destruct e as [v | v | | id | files | i r]; cbn [App.dispatch].
  - intros [= <-]. split; assumption.
  - intros [= <-]. split; assumption.
  - destruct (ChatInterface.pending (ChatInterface.handleSubmit (App.chat a)))
      as [k|] eqn:Hp; intros [= <-].
    + destruct (handleSubmit_pending _ _ Hp) as (Hl & _ & Hms & Hl' & Hreq).
      rewrite chat_messages_set_eq. unfold App.issue. page_cbn.
      rewrite Hreq, Hl'. page_cbn. split; [| discriminate].
      intros k0 H0. apply elem_of_app in H0. destruct H0 as [H0 | H0].
      * exact (Hk k0 H0).
      * apply list_elem_of_singleton in H0. injection H0 as ->.
        eexists _, _. split; [exact Hms |]. split; [| reflexivity].
        exact (Hidle Hl).
    + rewrite (handleSubmit_not_started _ Hp). split; assumption.
  - destruct (DocumentList.loading (App.docs a)); [discriminate |].
    destruct (DocumentList.documents (App.docs a) !! id); [| discriminate].
    destruct (bool_decide _); [discriminate |].
    intros [= <-]. page_step. split; [| exact Hidle].
    intros k0 H0. apply Hk. chat_request_was_there H0.
  - intros [= <-]. page_step; (split; [| exact Hidle]);
      intros k0 H0; apply Hk; chat_request_was_there H0.
  - destruct (App.inflight a !! i) as [[k | | |]|] eqn:Hi;
      destruct r as [[v|err] | [v|err] | [v|err] | [v|err]];
      try discriminate; intros [= <-]; page_step;
      (split; [intros k0 H0; apply Hk; chat_request_was_there H0 |]);
      try exact Hidle; try reflexivity.
    all: intros _; apply list_elem_of_lookup_2 in Hi;
      destruct (Hk k Hi) as (ms & q & -> & Hms & Hq);
      rewrite <- app_assoc, (paired_app _ _ Hms); cbn [app paired];
      rewrite Hq; reflexivity.
Qed.

Lemma conversation_inv_init : conversation_inv App.init.
Proof.
  split; [| reflexivity].
  intros k H. cbn in H. apply list_elem_of_singleton in H. discriminate.
Qed.

(** X6. In every state the page can reach, an idle chat (no request in
    flight, loading off) shows a conversation made of questions each
    followed by one assistant message. *)
Theorem idle_chat_shows_pairs (a : App.State) :
  App.reachable a ->
  ChatInterface.loading (App.chat a) = false ->
  paired (ChatInterface.messages (App.chat a)) = true.
Proof.
  intros Hr.
  enough (H : conversation_inv a) by exact (proj2 H).
  induction Hr as [|a e a' _ IH Hstep]; [exact conversation_inv_init |].
  exact (conversation_inv_step _ _ _ IH Hstep).
Qed.


Lemma idle_chat_shows_pairs_witness :
  let a := default App.init
             (App.run
                [ App.InputChange (lit "Hello"); App.Submit;
                  App.Settle 1
                    (App.ChatReply
                       (App.Rejected {| err_message := lit "Network Error";
                                        err_stack := [] |})) ]
                App.init) in
  length (ChatInterface.messages (App.chat a)) = 2%nat
  /\ paired (ChatInterface.messages (App.chat a)) = true.
Proof.
  intros a. split; [reflexivity |].
  apply (idle_chat_shows_pairs a); [| reflexivity].
  apply (run_reachable
           [ App.InputChange (lit "Hello"); App.Submit;
             App.Settle 1
               (App.ChatReply
                  (App.Rejected {| err_message := lit "Network Error";
                                   err_stack := [] |})) ]
           App.init); [apply App.reachable_init | reflexivity].
Defined.

(** ** The document list: fetching *)

(** X8. However the fetch of the list settles, the loading text goes away,
    the refresh flag is lowered, no request is issued and the chat and
    the upload card are left alone; resolved, the documents are those of
    the response; rejected, they are the ones already there.  Either way
    the list shows one card per document it holds. *)
Theorem fetch_settled
    (a : App.State) (i : nat) (o : App.outcome (gmap jsstring Document)) :
  App.inflight a !! i = Some App.RFetch ->
  exists a',
    App.dispatch (App.Settle i (App.FetchReply o)) a = Some a'
    /\ DocumentList.documents (App.docs a')
       = match o with
         | App.Resolved data => data
         | App.Rejected _ => DocumentList.documents (App.docs a)
         end
    /\ DocumentList.loading (App.docs a') = false
    /\ Home.refreshDocuments (App.home a') = false
    /\ App.inflight a' = delete i (App.inflight a)
    /\ App.chat a' = App.chat a
    /\ App.upload a' = App.upload a
    /\ DocumentList.summarizing (App.docs a')
       = DocumentList.summarizing (App.docs a)
    /\ elements_by_tag "Card" (DocumentList.render (App.docs a'))
       = DocumentList.render_document (App.docs a')
           <$> map_to_list (DocumentList.documents (App.docs a')).
Proof.
  intros Hi. destruct o as [data | err]; (eexists; split;
    [ cbn [App.dispatch]; rewrite Hi; reflexivity
    | page_step; repeat split;
      match goal with
      | |- elements_by_tag _ (DocumentList.render ?d) = _ =>
          apply (cards_of_list d); reflexivity
      end ]).
Qed.

Lemma fetch_settled_witness :
  let o := App.Rejected {| err_message := lit "Network Error";
                           err_stack := [] |} in
  exists a',
    App.dispatch (App.Settle 0 (App.FetchReply o)) App.init = Some a'
    /\ DocumentList.documents (App.docs a') = ∅
    /\ DocumentList.loading (App.docs a') = false
    /\ Home.refreshDocuments (App.home a') = false
    /\ App.inflight a' = []
    /\ App.chat a' = App.chat App.init
    /\ App.upload a' = App.upload App.init
    /\ DocumentList.summarizing (App.docs a') = None
    /\ elements_by_tag "Card" (DocumentList.render (App.docs a'))
       = DocumentList.render_document (App.docs a')
           <$> map_to_list (DocumentList.documents (App.docs a')).
Proof.
  intros o. apply (fetch_settled App.init 0 o). reflexivity.
Defined.

(** ** Upload: the rest of the cycle *)

Lemma acceptedFiles_options (files : list File) :
  Dropzone.acceptedFiles DocumentUpload.options files
  = match List.filter passes_drop_zone files with
    | [f] => [f]
    | _ => []
    end.
Proof.
  unfold Dropzone.acceptedFiles.
  rewrite (filter_ext _ _ fileAccepted_options).
  cbn [DocumentUpload.options Dropzone.maxFiles].
  destruct (List.filter passes_drop_zone files) as [|f [|f' ok]]; reflexivity.
Qed.

Lemma set_upload_same (a : App.State) :
  App.set_inflight (App.inflight a) (App.set_upload (App.upload a) a) = a.
Proof. destruct a; reflexivity. Qed.

(** X13. A drop in which the drop zone lets through no file, or more than
    one (a file passes when its MIME type is [application/pdf] or
    [application/x-moz-file] or its name ends in [.pdf]), changes nothing
    on the page: no request, no progress text, and the status of an
    earlier upload stays. *)
Theorem drop_without_single_file_is_silent (a : App.State) (files : list File) :
  length (List.filter passes_drop_zone files) <> 1%nat ->
  App.dispatch (App.Drop files) a = Some a.
Proof.
  intros Hn. cbn [App.dispatch]. unfold DocumentUpload.drop.
  rewrite acceptedFiles_options.
  destruct (List.filter passes_drop_zone files) as [|f [|f' ok]];
    [| exfalso; apply Hn; reflexivity |];
    unfold App.run_upload, App.issue; page_cbn;
    rewrite app_nil_r, set_upload_same; reflexivity.
Qed.

Lemma drop_without_single_file_is_silent_witness :
  let txt := {| file_name := lit "notes.txt"; file_type := lit "text/plain";
                file_bytes := [104; 105]%N |} in
  let pdf := {| file_name := lit "sky.pdf"; file_type := lit "application/pdf";
                file_bytes := [37; 80; 68; 70]%N |} in
  let moz := {| file_name := lit "notes.txt";
                file_type := lit "application/x-moz-file";
                file_bytes := [104; 105]%N |} in
  App.dispatch (App.Drop [txt]) App.init = Some App.init
  /\ App.dispatch (App.Drop [pdf; moz]) App.init = Some App.init.
Proof.
  intros txt pdf moz. split.
  - apply (drop_without_single_file_is_silent App.init [txt]).
    vm_compute. discriminate.
  - apply (drop_without_single_file_is_silent App.init [pdf; moz]).
    vm_compute. discriminate.
Defined.

(** X14. A drop in which the drop zone lets through exactly one file
    starts the upload of that file: the status of an earlier upload is
    cleared, the card shows the progress text under the drop zone, one
    upload request joins the calls in flight, and the rest of the page is
    left alone. *)
Theorem drop_starts_upload
    (a : App.State) (files : list File) (f : File) (isDragActive : bool) :
  List.filter passes_drop_zone files = [f] ->
  exists a',
    App.dispatch (App.Drop files) a = Some a'
    /\ DocumentUpload.effects (DocumentUpload.drop files (App.upload a))
       = [AxiosPost DocumentUpload.upload_url (FormData (lit "file") f)]
    /\ DocumentUpload.uploading (App.upload a') = true
    /\ DocumentUpload.uploadStatus (App.upload a') = None
    /\ App.inflight a' = App.inflight a ++ [App.RUpload]
    /\ App.home a' = App.home a
    /\ App.chat a' = App.chat a
    /\ App.docs a' = App.docs a
    /\ leaves (DocumentUpload.render isDragActive (App.upload a'))
       = [ LText (if isDragActive then lit "Drop the PDF here..."
                  else lit "Drag & drop a PDF, or click to select");
           LText (lit "Only PDF files are supported");
           LText (lit "Uploading and processing document...") ].
Proof.
  intros Hf. eexists. split; [reflexivity |].
  rewrite drop_effects, Hf. split; [reflexivity |].
  cbn [App.dispatch]. unfold DocumentUpload.drop.
  rewrite acceptedFiles_options, Hf.
  unfold App.run_upload, App.issue. page_cbn.
  repeat split. destruct isDragActive; reflexivity.
Qed.

Lemma drop_starts_upload_witness :
  let txt := {| file_name := lit "notes.txt"; file_type := lit "text/plain";
                file_bytes := [104; 105]%N |} in
  let moz := {| file_name := lit "notes.txt";
                file_type := lit "application/x-moz-file";
                file_bytes := [104; 105]%N |} in
  exists a',
    App.dispatch (App.Drop [txt; moz]) App.init = Some a'
    /\ DocumentUpload.effects
         (DocumentUpload.drop [txt; moz] (App.upload App.init))
       = [AxiosPost DocumentUpload.upload_url (FormData (lit "file") moz)]
    /\ DocumentUpload.uploading (App.upload a') = true
    /\ DocumentUpload.uploadStatus (App.upload a') = None
    /\ App.inflight a' = [App.RFetch; App.RUpload]
    /\ App.home a' = App.home App.init
    /\ App.chat a' = App.chat App.init
    /\ App.docs a' = App.docs App.init
    /\ leaves (DocumentUpload.render false (App.upload a'))
       = [ LText (lit "Drag & drop a PDF, or click to select");
           LText (lit "Only PDF files are supported");
           LText (lit "Uploading and processing document...") ].
Proof.
  intros txt moz.
  apply (drop_starts_upload App.init [txt; moz] moz false). reflexivity.
Defined.

(** X15. When an upload request is rejected, the card shows the fixed error
    text, whatever was thrown, the progress text goes away, and nothing
    else moves: no refresh of the list, no request, the chat as it
    was. *)
Theorem upload_failure_status
    (a : App.State) (i : nat) (err : JsError) (isDragActive : bool) :
  App.inflight a !! i = Some App.RUpload ->
  exists a',
    App.dispatch (App.Settle i (App.UploadReply (App.Rejected err))) a = Some a'
    /\ DocumentUpload.uploadStatus (App.upload a')
       = Some {| DocumentUpload.success := false;
                 DocumentUpload.message :=
                   lit "Error uploading document. Please try again." |}
    /\ DocumentUpload.uploading (App.upload a') = false
    /\ App.inflight a' = delete i (App.inflight a)
    /\ App.home a' = App.home a
    /\ App.docs a' = App.docs a
    /\ App.chat a' = App.chat a
    /\ leaves (DocumentUpload.render isDragActive (App.upload a'))
       = [ LText (if isDragActive then lit "Drop the PDF here..."
                  else lit "Drag & drop a PDF, or click to select");
           LText (lit "Only PDF files are supported");
           LText (lit "Error uploading document. Please try again.") ].
Proof.
  intros Hi. eexists. split.
  - cbn [App.dispatch]. rewrite Hi. reflexivity.
  - page_step. repeat split. destruct isDragActive; reflexivity.
Qed.

Lemma upload_failure_status_witness :
  let pdf := {| file_name := lit "sky.pdf"; file_type := lit "application/pdf";
                file_bytes := [37; 80; 68; 70]%N |} in
  let a := default App.init (App.run [App.Drop [pdf]] App.init) in
  let err := {| err_message := lit "Request failed with status code 500";
                err_stack := lit "at settle" |} in
  exists a',
    App.dispatch (App.Settle 1 (App.UploadReply (App.Rejected err))) a = Some a'
    /\ DocumentUpload.uploadStatus (App.upload a')
       = Some {| DocumentUpload.success := false;
                 DocumentUpload.message :=
                   lit "Error uploading document. Please try again." |}
    /\ DocumentUpload.uploading (App.upload a') = false
    /\ App.inflight a' = [App.RFetch]
    /\ App.home a' = App.home a
    /\ App.docs a' = App.docs a
    /\ App.chat a' = App.chat a
    /\ leaves (DocumentUpload.render false (App.upload a'))
       = [ LText (lit "Drag & drop a PDF, or click to select");
           LText (lit "Only PDF files are supported");
           LText (lit "Error uploading document. Please try again.") ].
Proof.
  intros pdf a err.
  apply (upload_failure_status a 1 err false). reflexivity.
Defined.

(** X16. When an upload request resolves, the refresh flag is up afterwards.
    If it was down, the list goes back to its loading text and one fetch
    joins the calls in flight; if it was already up, the list is left
    alone and no fetch is issued for this upload. *)
Theorem upload_success_refreshes_list
    (a : App.State) (i : nat) (r : DocumentUpload.Response) :
  App.inflight a !! i = Some App.RUpload ->
  exists a',
    App.dispatch (App.Settle i (App.UploadReply (App.Resolved r))) a = Some a'
    /\ Home.refreshDocuments (App.home a') = true
    /\ (Home.refreshDocuments (App.home a) = false ->
        DocumentList.loading (App.docs a') = true
        /\ DocumentList.documents (App.docs a')
           = DocumentList.documents (App.docs a)
        /\ App.inflight a' = delete i (App.inflight a) ++ [App.RFetch])
    /\ (Home.refreshDocuments (App.home a) = true ->
        App.docs a' = App.docs a
        /\ App.inflight a' = delete i (App.inflight a))
    /\ App.chat a' = App.chat a.
Proof.
  intros Hi. eexists. split.
  - cbn [App.dispatch]. rewrite Hi. reflexivity.
  - page_step; repeat split; intros; congruence.
Qed.

Lemma upload_success_refreshes_list_witness :
  let pdf := {| file_name := lit "sky.pdf"; file_type := lit "application/pdf";
                file_bytes := [37; 80; 68; 70]%N |} in
  let a := default App.init
             (App.run
                [ App.Settle 0 (App.FetchReply (App.Resolved ∅));
                  App.Drop [pdf] ] App.init) in
  let r := {| DocumentUpload.resp_filename := lit "sky.pdf";
              DocumentUpload.resp_num_chunks := 12 |} in
  App.inflight a = [App.RUpload]
  /\ DocumentList.loading (App.docs a) = false
  /\ exists a',
      App.dispatch (App.Settle 0 (App.UploadReply (App.Resolved r))) a = Some a'
      /\ DocumentList.loading (App.docs a') = true
      /\ App.inflight a' = [App.RFetch].
Proof.
  intros pdf a r. split; [reflexivity |]. split; [reflexivity |].
  destruct (upload_success_refreshes_list a 0 r eq_refl)
    as (a' & Hd & _ & Hdown & _).
  exists a'. split; [exact Hd |].
  destruct (Hdown eq_refl) as (Hl & _ & Hfl). split; [exact Hl | exact Hfl].
Defined.

(** ** The document list: summarizing *)

(** X10. Clicking Summarize on a listed document marks that document as being
    summarized, remembers its filename for the dialog and posts to the
    summarize URL of its id; its card then reads Summarizing and cannot
    be clicked again, while the card of any other document still reads
    Summarize. *)
Theorem summarize_click
    (a : App.State) (id : jsstring) (doc : Document) :
  DocumentList.loading (App.docs a) = false ->
  DocumentList.documents (App.docs a) !! id = Some doc ->
  DocumentList.summarizing (App.docs a) <> Some id ->
  exists a',
    App.dispatch (App.ClickSummarize id) a = Some a'
    /\ DocumentList.summarizing (App.docs a') = Some id
    /\ DocumentList.currentFile (App.docs a') = filename doc
    /\ App.inflight a' = App.inflight a ++ [App.RSummarize]
    /\ DocumentList.effects
         (DocumentList.handleSummarize id (filename doc) (App.docs a))
       = [AxiosPost (lit "http://localhost:8000/documents/" ++ id
                     ++ lit "/summarize") NoBody]
    /\ App.chat a' = App.chat a
    /\ App.dispatch (App.ClickSummarize id) a' = None
    /\ leaves (DocumentList.render_document (App.docs a') (id, doc))
       = [LText (filename doc); LNum (num_pages doc); LText (lit " pages");
          LText (lit "Summarizing...")]
    /\ (forall id' doc',
           id' <> id ->
           leaves (DocumentList.render_document (App.docs a') (id', doc'))
           = [LText (filename doc'); LNum (num_pages doc');
              LText (lit " pages"); LText (lit "Summarize")]).
Proof.
  intros Hl Hdoc Hs. eexists. split.
  - cbn [App.dispatch]. rewrite Hl, Hdoc.
    rewrite bool_decide_eq_false_2 by exact Hs. reflexivity.
  - page_step. repeat split.
    + cbn [App.dispatch]. page_cbn. rewrite Hl, Hdoc.
      rewrite bool_decide_eq_true_2 by reflexivity. reflexivity.
    + cbn [DocumentList.render_document]. page_cbn.
      rewrite bool_decide_eq_true_2 by reflexivity. reflexivity.
    + intros id' doc' Hne. cbn [DocumentList.render_document]. page_cbn.
      rewrite bool_decide_eq_false_2 by congruence. reflexivity.
Qed.

Lemma summarize_click_witness :
  let a := default App.init
             (App.run
                [ App.Settle 0
                    (App.FetchReply
                       (App.Resolved
                          {[ lit "doc-1" := {| filename := lit "sky.pdf";
                                               num_pages := 2 |} ]})) ]
                App.init) in
  exists a',
    App.dispatch (App.ClickSummarize (lit "doc-1")) a = Some a'
    /\ DocumentList.summarizing (App.docs a') = Some (lit "doc-1")
    /\ App.inflight a' = [App.RSummarize]
    /\ App.dispatch (App.ClickSummarize (lit "doc-1")) a' = None.
Proof.
  intros a.
  destruct (summarize_click a (lit "doc-1")
              {| filename := lit "sky.pdf"; num_pages := 2 |})
    as (a' & Hd & Hs & _ & Hfl & _ & _ & Hnone & _).
  - vm_compute. reflexivity.
  - vm_compute. reflexivity.
  - vm_compute. discriminate.
  - exists a'. repeat split; assumption.
Defined.

(** X11. When a summarize request is rejected, the chat and Home's copy of it
    stay as they were, no card reads Summarizing any more, and the
    dialog keeps what it had; nothing is requested. *)
Theorem summarize_failure_keeps_chat
    (a : App.State) (i : nat) (err : JsError) :
  App.inflight a !! i = Some App.RSummarize ->
  exists a',
    App.dispatch (App.Settle i (App.SummarizeReply (App.Rejected err))) a
    = Some a'
    /\ App.chat a' = App.chat a
    /\ App.home a' = App.home a
    /\ App.upload a' = App.upload a
    /\ DocumentList.summarizing (App.docs a') = None
    /\ DocumentList.summary (App.docs a') = DocumentList.summary (App.docs a)
    /\ DocumentList.summaryDialogOpen (App.docs a')
       = DocumentList.summaryDialogOpen (App.docs a)
    /\ DocumentList.documents (App.docs a')
       = DocumentList.documents (App.docs a)
    /\ App.inflight a' = delete i (App.inflight a).
Proof.
  intros Hi. eexists. split.
  - cbn [App.dispatch]. rewrite Hi. reflexivity.
  - page_step. repeat split.
Qed.

Lemma summarize_failure_keeps_chat_witness :
  let a := App.set_inflight [App.RSummarize] App.init in
  let err := {| err_message := lit "Network Error"; err_stack := [] |} in
  exists a',
    App.dispatch (App.Settle 0 (App.SummarizeReply (App.Rejected err))) a
    = Some a'
    /\ App.chat a' = App.chat a
    /\ App.home a' = App.home a
    /\ App.upload a' = App.upload a
    /\ DocumentList.summarizing (App.docs a') = None
    /\ DocumentList.summary (App.docs a') = None
    /\ DocumentList.summaryDialogOpen (App.docs a') = false
    /\ DocumentList.documents (App.docs a') = ∅
    /\ App.inflight a' = [].
Proof.
  intros a err. apply (summarize_failure_keeps_chat a 0 err). reflexivity.
Defined.

(** ** The summary dialog *)

Lemma split_nonempty (sep : N) (s : jsstring) : DocumentList.split sep s <> [].
Proof.
  destruct s as [|c s]; [discriminate |]. cbn [DocumentList.split].
  destruct (c =? sep)%N; [discriminate |].
  destruct (DocumentList.split sep s); discriminate.
Qed.

Lemma join_cons (sep : N) (x : jsstring) (l : list jsstring) :
  l <> [] -> join sep (x :: l) = x ++ sep :: join sep l.
Proof. destruct l; [congruence | reflexivity]. Qed.

Lemma join_split (sep : N) (s : jsstring) :
  join sep (DocumentList.split sep s) = s.
Proof.
  induction s as [|c s IH]; [reflexivity |]. cbn [DocumentList.split].
  destruct (c =? sep)%N eqn:Hc.
  - apply N.eqb_eq in Hc. subst c.
    rewrite (join_cons _ _ _ (split_nonempty sep s)), IH. reflexivity.
  - pose proof (split_nonempty sep s) as Hne.
    destruct (DocumentList.split sep s) as [|w ws]; [congruence |].
    rewrite <- IH. destruct ws; reflexivity.
Qed.

Lemma split_no_sep (sep : N) (s : jsstring) :
  Forall (fun line => sep ∉ line) (DocumentList.split sep s).
Proof.
  induction s as [|c s IH]; cbn [DocumentList.split].
  - repeat constructor. apply not_elem_of_nil.
  - destruct (c =? sep)%N eqn:Hc.
    + constructor; [apply not_elem_of_nil | exact IH].
    + apply N.eqb_neq in Hc.
      destruct (DocumentList.split sep s) as [|w ws].
      * repeat constructor. intros H. apply list_elem_of_singleton in H.
        congruence.
      * inversion IH as [|? ? Hw Hws]; subst. constructor; [| exact Hws].
        intros H. apply elem_of_cons in H. destruct H as [H | H];
          [congruence | exact (Hw H)].
Qed.

Lemma leaves_paragraphs (lines : list jsstring) :
  ((fun line => VElem "p" [] [VText line]) <$> lines) ≫= leaves
  = LText <$> lines.
Proof.
  induction lines as [|x lines IH]; [reflexivity |].
  rewrite !fmap_cons, bind_cons, IH. reflexivity.
Qed.

(** The dialog alone, after a resolved summarize request. *)
Lemma leaves_render_dialog_resolved
    (r : DocumentList.Response) (d : DocumentList.State) :
  leaves (DocumentList.render_dialog
            (DocumentList.next (DocumentList.handleSummarize_resolved r d)))
  = [LText (lit "Document Summary"); LText (lit "Summary of ");
     LText (DocumentList.currentFile d)]
    ++ (LText <$> DocumentList.split 10 (DocumentList.resp_summary r)).
Proof.
  unfold DocumentList.render_dialog. page_cbn.
  destruct (DocumentList.resp_summary r) as [|c s] eqn:Hs; [reflexivity |].
  cbn [truthy].
  transitivity
    ([LText (lit "Document Summary"); LText (lit "Summary of ");
      LText (DocumentList.currentFile d)]
     ++ (((fun line => VElem "p" [] [VText line])
            <$> DocumentList.split 10 (c :: s)) ≫= leaves)).
  - cbn. rewrite !app_nil_r. reflexivity.
  - rewrite leaves_paragraphs. reflexivity.
Qed.

(** The cards of a list in which nothing is being summarized. *)
Lemma leaves_idle_cards (d : DocumentList.State)
    (l : list (jsstring * Document)) :
  DocumentList.summarizing d = None ->
  (DocumentList.render_document d <$> l) ≫= leaves = l ≫= idle_card_leaves.
Proof.
  intros Hs. induction l as [|[id doc] l IH]; [reflexivity |].
  rewrite fmap_cons, !bind_cons, IH. f_equal.
  cbn [DocumentList.render_document]. rewrite Hs. reflexivity.
Qed.

Lemma no_dialog_in_cards (d : DocumentList.State)
    (l : list (jsstring * Document)) :
  (DocumentList.render_document d <$> l) ≫= elements_by_tag "Dialog" = [].
Proof.
  induction l as [|[id doc] l IH]; [reflexivity |].
  rewrite fmap_cons, bind_cons, IH.
  cbn [DocumentList.render_document].
  destruct (bool_decide _); reflexivity.
Qed.

(** X12. When a summarize request resolves, no card reads Summarizing any
    more and the dialog is open in the cells.  If the list is in its
    third display (not loading, some document), the component shows, after
    the heading and the cards, the open dialog with its title, the
    remembered filename and the summary cut at its newlines, one paragraph
    per line: no paragraph holds a newline, and the paragraphs joined by
    newlines are the summary, so nothing of it is lost.  If the list is
    loading or has no document, the component returns before the dialog
    and shows only its loading or empty text. *)
Theorem summary_dialog_shows_lines
    (r : DocumentList.Response) (d : DocumentList.State) :
  let d' := DocumentList.next (DocumentList.handleSummarize_resolved r d) in
  let lines := DocumentList.split 10 (DocumentList.resp_summary r) in
  DocumentList.summaryDialogOpen d' = true
  /\ DocumentList.summarizing d' = None
  /\ (DocumentList.loading d = false -> DocumentList.documents d <> ∅ ->
      attr_of "open" <$> elements_by_tag "Dialog" (DocumentList.render d')
      = [Some (ABool true)]
      /\ leaves (DocumentList.render d')
         = [LText (lit "Uploaded Documents (");
            LNum (Z.of_nat (size (DocumentList.documents d)));
            LText (lit ")")]
           ++ (map_to_list (DocumentList.documents d) ≫= idle_card_leaves)
           ++ [LText (lit "Document Summary"); LText (lit "Summary of ");
               LText (DocumentList.currentFile d)]
           ++ (LText <$> lines))
  /\ (DocumentList.loading d = true ->
      elements_by_tag "Dialog" (DocumentList.render d') = []
      /\ leaves (DocumentList.render d')
         = [LText (lit "Loading documents...")])
  /\ (DocumentList.loading d = false -> DocumentList.documents d = ∅ ->
      elements_by_tag "Dialog" (DocumentList.render d') = []
      /\ leaves (DocumentList.render d')
         = [LText (lit "No documents uploaded yet")])
  /\ join 10 lines = DocumentList.resp_summary r
  /\ Forall (fun line => 10%N ∉ line) lines.
Proof.
  intros d' lines. split; [reflexivity |]. split; [reflexivity |].
  split; [| split; [| split; [| split]]].
  - intros Hl Hne. subst d'. unfold DocumentList.render.
    page_cbn. rewrite Hl. unfold DocumentList.documentCount. page_cbn.
    destruct (size (DocumentList.documents d) =? 0)%nat eqn:Hz;
      [apply Nat.eqb_eq, map_size_empty_iff in Hz; congruence |].
    split.
    + transitivity
        (attr_of "open"
           <$> (((DocumentList.render_document
                    (DocumentList.next
                       (DocumentList.handleSummarize_resolved r d))
                    <$> map_to_list (DocumentList.documents d))
                   ≫= elements_by_tag "Dialog")
                ++ [DocumentList.render_dialog
                      (DocumentList.next
                         (DocumentList.handleSummarize_resolved r d))])).
      * cbn. rewrite !app_nil_r. reflexivity.
      * rewrite no_dialog_in_cards. reflexivity.
    + transitivity
        ([LText (lit "Uploaded Documents (");
          LNum (Z.of_nat (size (DocumentList.documents d)));
          LText (lit ")")]
         ++ ((DocumentList.render_document
                (DocumentList.next (DocumentList.handleSummarize_resolved r d))
                <$> map_to_list (DocumentList.documents d)) ≫= leaves)
         ++ leaves (DocumentList.render_dialog
                      (DocumentList.next
                         (DocumentList.handleSummarize_resolved r d)))).
      * cbn. rewrite !app_nil_r. reflexivity.
      * rewrite leaves_idle_cards by reflexivity.
        rewrite leaves_render_dialog_resolved. reflexivity.
  - intros Hl. subst d'. unfold DocumentList.render. page_cbn. rewrite Hl.
    split; reflexivity.
  - intros Hl He. subst d'. unfold DocumentList.render. page_cbn. rewrite Hl.
    unfold DocumentList.documentCount. page_cbn.
    rewrite He, map_size_empty. split; reflexivity.
  - apply join_split.
  - apply split_no_sep.
Qed.

Lemma summary_dialog_shows_lines_witness :
  let d := DocumentList.next
             (DocumentList.fetchDocuments_resolved
                {[ lit "doc-1" := {| filename := lit "sky.pdf";
                                     num_pages := 2 |} ]}
                DocumentList.init) in
  let d0 := DocumentList.next
              (DocumentList.handleSummarize (lit "doc-1") (lit "sky.pdf") d) in
  let r := {| DocumentList.resp_summary :=
                lit "Two pages." ++ [10%N] ++ lit "Sky and grass." |} in
  let d' := DocumentList.next (DocumentList.handleSummarize_resolved r d0) in
  leaves (DocumentList.render d')
  = [LText (lit "Uploaded Documents ("); LNum 1; LText (lit ")");
     LText (lit "sky.pdf"); LNum 2; LText (lit " pages");
     LText (lit "Summarize");
     LText (lit "Document Summary"); LText (lit "Summary of ");
     LText (lit "sky.pdf");
     LText (lit "Two pages."); LText (lit "Sky and grass.")].
Proof.
  intros d d0 r d'.
  destruct (summary_dialog_shows_lines r d0) as (_ & _ & H & _).
  destruct H as [_ H].
  - reflexivity.
  - apply (map_non_empty_singleton (lit "doc-1")).
  - subst d'. rewrite H. vm_compute. reflexivity.
Defined.

Example summary_dialog_example :
  DocumentList.split 10 (lit "Two pages." ++ [10%N] ++ [10%N] ++ lit "Sky.")
  = [lit "Two pages."; []; lit "Sky."].
Proof. reflexivity. Qed.

(** ** The chat: a whole round *)

(** X3. Asking and being answered, with nothing else settling in between,
    adds exactly the question as typed and the answer to the
    conversation, empties the input, and leaves the chat idle with the
    calls in flight as they were. *)
Theorem chat_round_trip (a : App.State) (r : ChatInterface.Response) :
  blank (ChatInterface.input (App.chat a)) = false ->
  ChatInterface.loading (App.chat a) = false ->
  exists a2,
    App.run [ App.Submit;
              App.Settle (length (App.inflight a))
                (App.ChatReply (App.Resolved r)) ] a = Some a2
    /\ ChatInterface.messages (App.chat a2)
       = ChatInterface.messages (App.chat a)
         ++ [ {| role := user; content := ChatInterface.input (App.chat a);
                 sources := None |};
              {| role := assistant; content := ChatInterface.answer r;
                 sources := ChatInterface.resp_sources r |} ]
    /\ ChatInterface.input (App.chat a2) = []
    /\ ChatInterface.loading (App.chat a2) = false
    /\ Home.messages (App.home a2) = ChatInterface.messages (App.chat a2)
    /\ App.inflight a2 = App.inflight a.
Proof.
  intros Hb Hl. cbn [App.run App.dispatch].
  unfold ChatInterface.handleSubmit.
  rewrite truthy_trim, Hb, Hl.
  cbn [negb orb ChatInterface.pending ChatInterface.next
       ChatInterface.effects].
  rewrite chat_messages_set_eq. unfold App.issue. page_cbn.
  rewrite list_lookup_middle by reflexivity.
  rewrite delete_middle, app_nil_r, chat_messages_set_eq. page_cbn.
  eexists. split; [reflexivity |]. page_cbn.
  cbn [ChatInterface.updatedMessages]. rewrite <- app_assoc.
  repeat split.
Qed.

Lemma chat_round_trip_witness :
  let a := App.set_chat
             (ChatInterface.onInputChange (lit " sky? ") (ChatInterface.init []))
             App.init in
  let r := {| ChatInterface.answer := lit "Blue.";
              ChatInterface.resp_sources := None |} in
  exists a2,
    App.run [ App.Submit;
              App.Settle 1 (App.ChatReply (App.Resolved r)) ] a = Some a2
    /\ ChatInterface.messages (App.chat a2)
       = [ {| role := user; content := lit " sky? "; sources := None |};
           {| role := assistant; content := lit "Blue."; sources := None |} ]
    /\ ChatInterface.input (App.chat a2) = []
    /\ ChatInterface.loading (App.chat a2) = false
    /\ Home.messages (App.home a2) = ChatInterface.messages (App.chat a2)
    /\ App.inflight a2 = [App.RFetch].
Proof.
  intros a r. apply (chat_round_trip a r); reflexivity.
Defined.

(** ** The document list: what it shows when *)

(** X9. While loading, the list shows only its loading text, and with no
    document only the text saying so: in both cases there is no card,
    hence no Summarize button.  Otherwise its heading counts the
    documents, and the count is the number of cards. *)
Theorem document_list_modes (d : DocumentList.State) :
  (DocumentList.loading d = true ->
   leaves (DocumentList.render d) = [LText (lit "Loading documents...")]
   /\ elements_by_tag "Card" (DocumentList.render d) = [])
  /\ (DocumentList.loading d = false -> DocumentList.documents d = ∅ ->
      leaves (DocumentList.render d) = [LText (lit "No documents uploaded yet")]
      /\ elements_by_tag "Card" (DocumentList.render d) = [])
  /\ (DocumentList.loading d = false -> DocumentList.documents d <> ∅ ->
      take 3 (leaves (DocumentList.render d))
      = [LText (lit "Uploaded Documents (");
         LNum (Z.of_nat (length (elements_by_tag "Card"
                                   (DocumentList.render d))));
         LText (lit ")")]
      /\ length (elements_by_tag "Card" (DocumentList.render d))
         = size (DocumentList.documents d)).
Proof.
  split; [| split].
  - intros Hl. unfold DocumentList.render. rewrite Hl. split; reflexivity.
  - intros Hl He. unfold DocumentList.render, DocumentList.documentCount.
    rewrite Hl, He, map_size_empty. split; reflexivity.
  - intros Hl Hne.
    assert (Hn : length (elements_by_tag "Card" (DocumentList.render d))
                 = size (DocumentList.documents d))
      by (rewrite (cards_of_list d Hl), length_fmap;
          apply length_map_to_list).
    split; [| exact Hn]. rewrite Hn.
    unfold DocumentList.render, DocumentList.documentCount. rewrite Hl.
    destruct (size (DocumentList.documents d) =? 0)%nat eqn:Hz.
    + apply Nat.eqb_eq, map_size_empty_iff in Hz. congruence.
    + reflexivity.
Qed.

Lemma document_list_modes_witness :
  leaves (DocumentList.render DocumentList.init)
  = [LText (lit "Loading documents...")]
  /\ elements_by_tag "Card" (DocumentList.render DocumentList.init) = [].
Proof.
  apply (proj1 (document_list_modes DocumentList.init)). reflexivity.
Defined.
